(** * Panopticon (run.py): path building, record formatting and dispatch

    A shallow embedding of [run.py] and the properties of its log paths
    and log lines.

    Conventions of the embedding.
    - A Python [str] is a [string]: the UTF-8 bytes of the text.  Every
      character the program tests for (the sanitizer's class, the newline)
      is ASCII, and no byte of a multi-byte UTF-8 sequence is below 0x80,
      so filtering and replacing on bytes agrees with the same operation
      on code points.
    - A Python [int] is a [Z].
    - A function that can raise returns [result]; a function that can
      fall off its end returns an [option] ([None] is Python's [None]).
    - The objects of the gateway client library (discord.py 1.x, the
      version whose names [message.guild], [edited_at] and
      [discord.TextChannel] the program uses) have the attributes that
      library gives them: reading another attribute raises
      [AttributeError], subscripting an object that is no mapping raises
      [TypeError].
    - Handlers run in a small state-and-exception monad over [World]; the
      operating system's refusals are part of the world. *)

From Stdlib Require Import ZArith List String Ascii Bool Lia.
From Stdlib Require Import DecimalString DecimalPos DecimalZ.
Import ListNotations.
Open Scope string_scope.

(** ** Python values and exceptions *)

Inductive exn : Type :=
| NameError (name : string)
| OverflowError (msg : string)
| TypeError (msg : string)
| AttributeError (msg : string)
| FileNotFoundError (path : string)
| FileExistsError (path : string)
| IsADirectoryError (path : string)
| OSError (msg : string).

Inductive result (A : Type) : Type :=
| Ok (a : A)
| Raise (e : exn).
Arguments Ok {A} a.
Arguments Raise {A} e.

Definition rbind {A B : Type} (r : result A) (k : A -> result B) : result B :=
  match r with
  | Ok a => k a
  | Raise e => Raise e
  end.

(** The line feed, ['\n']. *)
Definition LF : ascii := "010"%char.
Definition NL : string := String LF EmptyString.

(** The double-quote character (code 34). *)
Definition DQUOTE : ascii := "034"%char.

(** ** [re.sub] with a character-class pattern

    The only pattern of the program is one bracket expression; an item of
    the class is a literal character or an inclusive range. *)

Inductive class_item : Type :=
| CChar (c : ascii)
| CRange (lo hi : ascii).

Definition item_matches (c : ascii) (it : class_item) : bool :=
  match it with
  | CChar d => Ascii.eqb c d
  | CRange lo hi =>
      (nat_of_ascii lo <=? nat_of_ascii c)%nat && (nat_of_ascii c <=? nat_of_ascii hi)%nat
  end.

Definition class_matches (cls : list class_item) (c : ascii) : bool :=
  existsb (item_matches c) cls.

(** [re.sub('[...]', repl, s)]: scanning left to right, every character
    the class matches is replaced by [repl], every other one is copied. *)
Fixpoint re_sub_class (cls : list class_item) (repl : string) (s : string) : string :=
  match s with
  | EmptyString => EmptyString
  | String c s' =>
      if class_matches cls c
      then repl ++ re_sub_class cls repl s'
      else String c (re_sub_class cls repl s')
  end.

(** The bracket expression of the pattern in [clean_filename]: slash,
    backslash, colon, star, question mark, double quote, the two angle
    brackets, the bar, and the range from \x00 to \x1f. *)
Definition filename_class : list class_item :=
  [ CChar "/"; CChar "\"; CChar ":"; CChar "*"; CChar "?"; CChar DQUOTE;
    CChar "<"; CChar ">"; CChar "|"; CRange "000" "031" ]%char.

(** [clean_filename(string)] *)
Definition clean_filename (s : string) : string :=
  re_sub_class filename_class "" s.

(** The sanitizer as the specification words it: the nine listed
    punctuation characters and the ASCII control characters 0x00-0x1F are
    removed, everything else is kept. *)
Definition spec_removed (c : ascii) : bool :=
  existsb (Ascii.eqb c)
    [ "/"; "\"; ":"; "*"; "?"; DQUOTE; "<"; ">"; "|" ]%char
  || (nat_of_ascii c <=? 31)%nat.

Fixpoint str_filter (keep : ascii -> bool) (s : string) : string :=
  match s with
  | EmptyString => EmptyString
  | String c s' =>
      if keep c then String c (str_filter keep s') else str_filter keep s'
  end.

Fixpoint str_count (p : ascii -> bool) (s : string) : nat :=
  match s with
  | EmptyString => 0
  | String c s' => (if p c then 1 else 0) + str_count p s'
  end.

Fixpoint str_forallb (p : ascii -> bool) (s : string) : bool :=
  match s with
  | EmptyString => true
  | String c s' => p c && str_forallb p s'
  end.

(** ** Python string operations used by the program *)

Definition is_LF (c : ascii) : bool := Ascii.eqb c LF.
Definition is_slash (c : ascii) : bool := Ascii.eqb c "/"%char.
Definition is_dash (c : ascii) : bool := Ascii.eqb c "-"%char.

Definition is_digit (c : ascii) : bool :=
  (48 <=? nat_of_ascii c)%nat && (nat_of_ascii c <=? 57)%nat.

Definition not_slash (c : ascii) : bool := negb (is_slash c).
Definition not_LF (c : ascii) : bool := negb (is_LF c).

(** [old] is a prefix of [s], as [s.startswith(old)]. *)
Fixpoint startswith (old s : string) : bool :=
  match old, s with
  | EmptyString, _ => true
  | String a old', String b s' => Ascii.eqb a b && startswith old' s'
  | String _ _, EmptyString => false
  end.

(** [s.replace(old, new)] for a non-empty [old]: occurrences are found
    scanning left to right and do not overlap.  [skip] counts the
    characters of the occurrence just replaced that are still to be
    passed over. *)
Fixpoint replace_from (old new : string) (skip : nat) (s : string) : string :=
  match s with
  | EmptyString => EmptyString
  | String c s' =>
      match skip with
      | S k => replace_from old new k s'
      | O =>
          if startswith old s
          then new ++ replace_from old new (String.length old - 1) s'
          else String c (replace_from old new 0 s')
      end
  end.

(** [s.replace('', new)] puts [new] before every character and at the end. *)
Fixpoint intersperse_str (new : string) (s : string) : string :=
  match s with
  | EmptyString => new
  | String c s' => new ++ String c (intersperse_str new s')
  end.

Definition str_replace (old new : string) (s : string) : string :=
  match old with
  | EmptyString => intersperse_str new s
  | String _ _ => replace_from old new 0 s
  end.

(** [s.split('\n')]: the physical lines of [s]; never the empty list. *)
Fixpoint split_lines (s : string) : list string :=
  match s with
  | EmptyString => [EmptyString]
  | String c s' =>
      if is_LF c then EmptyString :: split_lines s'
      else match split_lines s' with
           | l :: ls => String c l :: ls
           | [] => [String c EmptyString]
           end
  end.

(** ['{}'.format(n)] for an int, and for the non-negative fields of a date. *)
Definition str_of_int (z : Z) : string := NilZero.string_of_int (Z.to_int z).
Definition str_of_nat (n : nat) : string := NilZero.string_of_uint (Nat.to_uint n).

Fixpoint zeros (k : nat) : string :=
  match k with
  | O => EmptyString
  | S k' => String "0" (zeros k')
  end.

(** Left-pad with zeros to [width] characters, as [%m], [%d], [%H] do. *)
Definition zfill (width : nat) (s : string) : string :=
  zeros (width - String.length s) ++ s.

(** ** [os.path] *)

Fixpoint has_slash (s : string) : bool :=
  match s with
  | EmptyString => false
  | String c s' => is_slash c || has_slash s'
  end.

(** [p[:p.rfind('/') + 1]]: everything up to and including the last slash. *)
Fixpoint path_head (p : string) : string :=
  match p with
  | EmptyString => EmptyString
  | String c p' => if has_slash p then String c (path_head p') else EmptyString
  end.

(** [os.path.basename(p)], that is [p[p.rfind('/') + 1:]]. *)
Fixpoint basename (p : string) : string :=
  match p with
  | EmptyString => EmptyString
  | String c p' =>
      if has_slash p' then basename p'
      else if is_slash c then p' else p
  end.

(** [s.rstrip('/')] *)
Fixpoint rstrip_slash (s : string) : string :=
  match s with
  | EmptyString => EmptyString
  | String c s' =>
      match rstrip_slash s' with
      | EmptyString => if is_slash c then EmptyString else String c EmptyString
      | r => String c r
      end
  end.

(** [os.path.dirname(p)] of [posixpath]. *)
Definition dirname (p : string) : string :=
  let head := path_head p in
  if negb (String.eqb head "") && negb (str_forallb is_slash head)
  then rstrip_slash head
  else head.

(** A string ends with a character other than the slash. *)
Definition ends_without_slash (s : string) : Prop :=
  exists front c, s = front ++ String c "" /\ is_slash c = false.

(** [s] without the suffix [suf], when it ends with it. *)
Fixpoint strip_suffix (suf s : string) : option string :=
  if String.eqb s suf then Some EmptyString
  else match s with
       | EmptyString => None
       | String c s' =>
           match strip_suffix suf s' with
           | Some r => Some (String c r)
           | None => None
           end
       end.

(** The date bucket of a log path: its file name without [.log]. *)
Definition date_bucket (p : string) : option string :=
  strip_suffix ".log" (basename p).

(** ** [datetime] *)

(** A naive [datetime.datetime]; the microsecond field is never read. *)
Record datetime : Type := mkDatetime {
  year : nat;
  month : nat;
  day : nat;
  hour : nat;
  minute : nat;
  second : nat
}.

(** [time.strftime('%F')], the ISO date [%Y-%m-%d]. *)
Definition strftime_F (t : datetime) : string :=
  zfill 4 (str_of_nat (year t)) ++ "-" ++
  zfill 2 (str_of_nat (month t)) ++ "-" ++
  zfill 2 (str_of_nat (day t)).

(** The calendar date as the specification writes it, [YYYY-MM-DD]: four
    decimal digits of the year, two of the month, two of the day, with
    dashes between. *)
Definition digit_char (n : nat) : ascii := ascii_of_nat (48 + n mod 10).

Definition iso_date (y m d : nat) : string :=
  String (digit_char (y / 1000)) (String (digit_char (y / 100))
  (String (digit_char (y / 10)) (String (digit_char y)
  (String "-"
  (String (digit_char (m / 10)) (String (digit_char m)
  (String "-"
  (String (digit_char (d / 10)) (String (digit_char d) EmptyString))))))))).

(** Reading a [YYYY-MM-DD] text back into year, month and day. *)
Definition digit_value (c : ascii) : option nat :=
  if is_digit c then Some (nat_of_ascii c - 48) else None.

Definition number2 (c1 c2 : ascii) : option nat :=
  match digit_value c1, digit_value c2 with
  | Some a, Some b => Some (10 * a + b)
  | _, _ => None
  end.

Definition parse_iso_date (s : string) : option (nat * nat * nat) :=
  match s with
  | String y1 (String y2 (String y3 (String y4 (String s1
      (String m1 (String m2 (String s2 (String d1 (String d2 EmptyString))))))))) =>
      if is_dash s1 && is_dash s2 then
        match number2 y1 y2, number2 y3 y4, number2 m1 m2, number2 d1 d2 with
        | Some yh, Some yl, Some m, Some d => Some (100 * yh + yl, m, d)
        | _, _, _, _ => None
        end
      else None
  | _ => None
  end.

(** A date of the calendar with a year of four digits, as the timestamp
    of every message is (for a shorter year the padding of [%F] is left to
    the C library). *)
Definition valid_date (t : datetime) : Prop :=
  1000 <= year t < 10 * 1000 /\ 1 <= month t <= 12 /\ 1 <= day t <= 31.

(** [time.strftime('[%H:%M:%S]')] *)
Definition strftime_HMS (t : datetime) : string :=
  "[" ++ zfill 2 (str_of_nat (hour t)) ++ ":" ++
  zfill 2 (str_of_nat (minute t)) ++ ":" ++
  zfill 2 (str_of_nat (second t)) ++ "]".

(** ** [base64.b64encode] and [int.to_bytes] *)

Definition b64_alphabet : string :=
  "ABCDEFGHIJKLMNOPQRSTUVWXYZabcdefghijklmnopqrstuvwxyz0123456789+/".

Definition b64_char (n : Z) : ascii :=
  match String.get (Z.to_nat n) b64_alphabet with
  | Some c => c
  | None => "="%char
  end.

(** The position of a character in the alphabet, or -1. *)
Fixpoint index_from (k : Z) (c : ascii) (s : string) : Z :=
  match s with
  | EmptyString => (-1)%Z
  | String x s' => if Ascii.eqb x c then k else index_from (k + 1)%Z c s'
  end.

Definition b64_index (c : ascii) : Z := index_from 0 c b64_alphabet.

(** Bytes are integers in 0..255. *)
Fixpoint b64encode (bs : list Z) : string :=
  match bs with
  | [] => EmptyString
  | [a] =>
      String (b64_char (Z.shiftr a 2))
     (String (b64_char (Z.shiftl (Z.land a 3) 4)) "==")
  | [a; b] =>
      String (b64_char (Z.shiftr a 2))
     (String (b64_char (Z.lor (Z.shiftl (Z.land a 3) 4) (Z.shiftr b 4)))
     (String (b64_char (Z.shiftl (Z.land b 15) 2)) "="))
  | a :: b :: c :: rest =>
      String (b64_char (Z.shiftr a 2))
     (String (b64_char (Z.lor (Z.shiftl (Z.land a 3) 4) (Z.shiftr b 4)))
     (String (b64_char (Z.lor (Z.shiftl (Z.land b 15) 2) (Z.shiftr c 6)))
     (String (b64_char (Z.land c 63)) (b64encode rest))))
  end.

(** Base64 decoding as RFC 4648 describes it, for reading a token back:
    four characters stand for three bytes, [=] pads a last group that
    stands for one or two.  The value of a character is read off its
    code, as in the table of the RFC: [A]-[Z] are 0..25, [a]-[z] are
    26..51, the digits are 52..61, [+] is 62 and [/] is 63. *)
Definition sextet (c : ascii) : option Z :=
  let code := Z.of_nat (nat_of_ascii c) in
  if ((65 <=? code) && (code <=? 90))%Z then Some (code - 65)%Z
  else if ((97 <=? code) && (code <=? 122))%Z then Some (code - 71)%Z
  else if ((48 <=? code) && (code <=? 57))%Z then Some (code + 4)%Z
  else if (code =? 43)%Z then Some 62%Z
  else if (code =? 47)%Z then Some 63%Z
  else None.

Fixpoint b64decode (s : string) : option (list Z) :=
  match s with
  | EmptyString => Some []
  | String c0 (String c1 (String c2 (String c3 rest))) =>
      match sextet c0, sextet c1 with
      | Some s0, Some s1 =>
          let b0 := (s0 * 4 + s1 / 16)%Z in
          if Ascii.eqb c2 "="
          then if Ascii.eqb c3 "=" && String.eqb rest "" then Some [b0] else None
          else
            match sextet c2 with
            | Some s2 =>
                let b1 := (s1 mod 16 * 16 + s2 / 4)%Z in
                if Ascii.eqb c3 "="
                then if String.eqb rest "" then Some [b0; b1] else None
                else
                  match sextet c3, b64decode rest with
                  | Some s3, Some bs =>
                      Some (b0 :: b1 :: (s2 mod 4 * 64 + s3)%Z :: bs)
                  | _, _ => None
                  end
            | None => None
            end
      | _, _ => None
      end
  | _ => None
  end.

(** The [len] low-order bytes of [n], least significant first. *)
Fixpoint le_bytes (len : nat) (n : Z) : list Z :=
  match len with
  | O => []
  | S k => Z.land n 255 :: le_bytes k (Z.shiftr n 8)
  end.

(** [n.to_bytes(len, byteorder='little')] *)
Definition to_bytes_little (len : nat) (n : Z) : result (list Z) :=
  if (n <? 0)%Z then Raise (OverflowError "can't convert negative int to unsigned")
  else if (2 ^ (8 * Z.of_nat len) <=? n)%Z then Raise (OverflowError "int too big to convert")
  else Ok (le_bytes len n).

(** The integer a little-endian byte string stands for. *)
Fixpoint le_value (bs : list Z) : Z :=
  match bs with
  | [] => 0
  | b :: bs' => b + 256 * le_value bs'
  end.

(** ** The objects of the gateway client library *)

Record Guild : Type := mkGuild {
  guild_name : string;
  guild_id : Z
}.

Record User : Type := mkUser {
  user_name : string;
  user_discriminator : string;
  user_id : Z
}.

(** The class of [message.channel].  The program tests it with
    [type(...) is ...]; every class other than the three it names is
    [OtherChannel].  A text channel belongs to a guild.  A direct-message
    channel has a [recipient] (and no attribute [user]); the name of a
    group channel is [None] when the group was given none. *)
Inductive Channel : Type :=
| TextChannel (name : string) (id : Z) (guild : Guild)
| DMChannel (recipient : User) (id : Z)
| GroupChannel (name : option string) (id : Z)
| OtherChannel (guild : option Guild).

(** [message.channel.user] on a direct-message channel. *)
Definition DMChannel_user (recipient : User) : result User :=
  Raise (AttributeError "'DMChannel' object has no attribute 'user'").

(** A [discord.Attachment]: an object with attributes, of which the
    program wants [url]. *)
Record Attachment : Type := mkAttachment {
  url : string
}.

(** [attach[key]], as the format field [{0[url]}] evaluates it: the class
    defines no subscript. *)
Definition Attachment_getitem (attach : Attachment) (key : string) : result string :=
  Raise (TypeError "'Attachment' object is not subscriptable").

(** A value passed where [re.sub] wants a string. *)
Definition re_string (value : option string) : result string :=
  match value with
  | Some s => Ok s
  | None => Raise (TypeError "expected string or bytes-like object")
  end.

Record Message : Type := mkMessage {
  message_id : Z;
  message_channel : Channel;
  message_author : User;
  created_at : datetime;
  edited_at : option datetime;
  clean_content : string;
  attachments : list Attachment
}.

(** [message.guild] is the guild of the channel, or [None]. *)
Definition message_guild (m : Message) : option Guild :=
  match message_channel m with
  | TextChannel _ _ g => Some g
  | DMChannel _ _ => None
  | GroupChannel _ _ => None
  | OtherChannel og => og
  end.

(** The effective timestamp as the specification words it: the edit time
    if present, otherwise the creation time. *)
Definition effective_timestamp (m : Message) : datetime :=
  match edited_at m with
  | Some t => t
  | None => created_at m
  end.

(** ** Configuration and module namespace *)

(** [config], the dictionary loaded from [config.yaml]. *)
Record Config : Type := mkConfig {
  log_dir : string;
  use_localtime : bool;
  ignore_servers : list Z
}.

(** Global names that function bodies of [run.py] read although no
    statement of the file binds them.  A field says what such a name is
    bound to when the body runs; reading an unbound one raises
    [NameError]. *)
Record Namespace : Type := mkNamespace {
  ns_datetime : bool;
  ns_IGNORE_GUILDS : option (list Z);
  ns_utils : bool
}.

(** The namespace [run.py] itself sets up: it imports [base64],
    [timezone] (from [datetime]), [os], [re], [discord] and [yaml], and
    binds [config] and [client]; none of the three names is among them. *)
Definition run_py : Namespace :=
  {| ns_datetime := false; ns_IGNORE_GUILDS := None; ns_utils := false |}.

(** A namespace in which [datetime] is imported, [IGNORE_GUILDS] is the
    configured ignore list and [utils] is imported. *)
Definition repaired (cfg : Config) : Namespace :=
  {| ns_datetime := true;
     ns_IGNORE_GUILDS := Some (ignore_servers cfg);
     ns_utils := true |}.

(** [datetime.datetime.utcnow()], the clock reading being [now]. *)
Definition utcnow (ns : Namespace) (now : datetime) : result datetime :=
  if ns_datetime ns then Ok now else Raise (NameError "datetime").

(** [x in xs] for a list of ints. *)
Definition int_in (x : Z) (xs : list Z) : bool := existsb (Z.eqb x) xs.

(** ** Path Builder *)

(** [make_filename(message)] *)
Definition make_filename (cfg : Config) (m : Message) : result (option string) :=
  let time :=
    match edited_at m with
    | Some t => t
    | None => created_at m
    end in
  let timestamp := strftime_F time in
  match message_channel m with
  | TextChannel name id guild =>
      Ok (Some (log_dir cfg ++ "/" ++ clean_filename (guild_name guild) ++ "-" ++
                str_of_int (guild_id guild) ++ "/#" ++ clean_filename name ++ "-" ++
                str_of_int id ++ "/" ++ timestamp ++ ".log"))
  | DMChannel recipient _ =>
      rbind (DMChannel_user recipient) (fun user =>
      Ok (Some (log_dir cfg ++ "/DM/" ++ clean_filename (user_name user) ++ "-" ++
                str_of_int (user_id user) ++ "/" ++ timestamp ++ ".log")))
  | GroupChannel name id =>
      rbind (re_string name) (fun name =>
      Ok (Some (log_dir cfg ++ "/DM/" ++ clean_filename name ++ "-" ++
                str_of_int id ++ "/" ++ timestamp ++ ".log")))
  | OtherChannel _ => Ok None
  end.

(** [make_audit_filename(event, guild)]; [now] is the clock reading. *)
Definition make_audit_filename (ns : Namespace) (cfg : Config) (now : datetime)
    (event : string) (guild : Guild) : result string :=
  rbind (utcnow ns now) (fun time =>
  let timestamp := strftime_F time in
  if String.eqb event "on_guild_add" || String.eqb event "on_guild_remove"
  then Ok (log_dir cfg ++ "/AUDIT/" ++ timestamp ++ ".log")
  else Ok (log_dir cfg ++ "/" ++ clean_filename (guild_name guild) ++ "-" ++
           str_of_int (guild_id guild) ++ "/AUDIT/" ++ timestamp ++ ".log")).

(** ** Record Formatter *)

(** [text.replace('\n', '\n(newline) ')] *)
Definition mark (text : string) : string :=
  str_replace NL (NL ++ "(newline) ") text.

Section Formatter.

(** [t.replace(tzinfo=timezone.utc).astimezone(tz=None)]: the same
    instant on the wall clock of the system's time zone. *)
Variable astimezone_local : datetime -> datetime.

(** The local variable [message_id] of [make_message]. *)
Definition message_id_token (m : Message) : result string :=
  let opening := match edited_at m with Some _ => "[E:" | None => "[" end in
  rbind (to_bytes_little 8 (message_id m)) (fun bytes =>
  Ok (opening ++ b64encode bytes ++ "]")).

(** The local variable [timestamp] of [make_message]. *)
Definition message_timestamp (cfg : Config) (m : Message) : string :=
  let time :=
    match edited_at m with
    | Some t => t
    | None => created_at m
    end in
  let time := if use_localtime cfg then astimezone_local time else time in
  strftime_HMS time.

(** The local variable [author]. *)
Definition message_author_tag (m : Message) : string :=
  "<" ++ user_name (message_author m) ++ "#" ++
  user_discriminator (message_author m) ++ ">".

(** The local variable [content]. *)
Definition message_content (m : Message) : string :=
  mark (clean_content m).

(** The local variable [attachments]: the loop appends one piece per
    attachment to the empty string; each piece is formatted with
    ['\n(attach) {0[url]}'], which subscripts the attachment. *)
Definition message_attachments (m : Message) : result string :=
  match attachments m with
  | [] => Ok EmptyString
  | atts =>
      fold_left
        (fun acc attach =>
           rbind acc (fun attachments =>
           rbind (Attachment_getitem attach "url") (fun url =>
           Ok (attachments ++ NL ++ "(attach) " ++ url))))
        atts (Ok EmptyString)
  end.

(** [make_message(message)] *)
Definition make_message (cfg : Config) (m : Message) : result string :=
  rbind (message_id_token m) (fun message_id =>
  let timestamp := message_timestamp cfg m in
  let author := message_author_tag m in
  let content := message_content m in
  rbind (message_attachments m) (fun attachments =>
  Ok (message_id ++ " " ++ timestamp ++ " " ++ author ++ " " ++
      content ++ " " ++ attachments))).

(** [make_audit_ban(event, guild, user)] *)
Definition make_audit_ban (ns : Namespace) (cfg : Config) (now : datetime)
    (event : string) (guild : Guild) (user : User) : result (option string) :=
  rbind (utcnow ns now) (fun time =>
  let time := if use_localtime cfg then astimezone_local time else time in
  let timestamp := strftime_HMS time in
  let continue (type : string) :=
    let member := "<User:" ++ user_name user ++ "#" ++
                  user_discriminator user ++ ">(ID:" ++
                  str_of_int (user_id user) ++ ")" in
    Ok (Some (timestamp ++ " " ++ type ++ " " ++ member)) in
  if String.eqb event "on_member_ban" then continue "[BAN]"
  else if String.eqb event "on_member_unban" then continue "[UNBAN]"
  else Ok None).

(** [make_audit(event, guild)] *)
Definition make_audit (ns : Namespace) (cfg : Config) (now : datetime)
    (event : string) (guild : Guild) : result (option string) :=
  rbind (utcnow ns now) (fun time =>
  let time := if use_localtime cfg then astimezone_local time else time in
  let timestamp := strftime_HMS time in
  let continue (type : string) :=
    let guildinfo := "<Guild:" ++ guild_name guild ++ ">(ID:" ++
                     str_of_int (guild_id guild) ++ ")" in
    Ok (Some (timestamp ++ " " ++ type ++ " " ++ guildinfo)) in
  if String.eqb event "on_guild_unavailable" then continue "[GUILD OFFLINE]"
  else if String.eqb event "on_guild_available" then continue "[GUILD ONLINE]"
  else if String.eqb event "on_guild_remove" then continue "[GUILD REMOVED/BANNED]"
  else if String.eqb event "on_guild_add" then continue "[GUILD ADDED]"
  else Ok None).

End Formatter.

(** Reading a record back, as the specification words it: removing the
    continuation markers, that is, putting a bare newline in the place of
    every newline that is followed by the marker. *)
Definition remove_markers (s : string) : string :=
  str_replace (NL ++ "(newline) ") NL s.

(** A physical line of the form [(attach) <url>]. *)
Definition is_attach_line (l : string) : bool := startswith "(attach) " l.

(** The event-kind tags as the specification lists them, with the label
    each puts in its record. *)
Definition ban_event_label (event : string) : option string :=
  if String.eqb event "on_member_ban" then Some "[BAN]"
  else if String.eqb event "on_member_unban" then Some "[UNBAN]"
  else None.

Definition guild_event_label (event : string) : option string :=
  if String.eqb event "on_guild_unavailable" then Some "[GUILD OFFLINE]"
  else if String.eqb event "on_guild_available" then Some "[GUILD ONLINE]"
  else if String.eqb event "on_guild_remove" then Some "[GUILD REMOVED/BANNED]"
  else if String.eqb event "on_guild_add" then Some "[GUILD ADDED]"
  else None.

(** ** Log Writer and Event Dispatcher *)

(** What the process has put on its terminal: a line written by [print],
    or the report the gateway client writes to standard error when a
    handler lets an exception escape. *)
Inductive output : Type :=
| Printed (line : string)
| Traceback (handler : string) (e : exn).

(** The world a handler acts on: the regular files with their contents,
    the directories (each stands for itself and its ancestors), the
    terminal, and what the operating system refuses: [os_refuses path] is
    the error it answers when asked to create or open [path] (permission
    denied, name too long, a component that is no directory, no space
    left), or [None] when it goes along.  The refusals do not change
    while a handler runs, and writing to a file that has been opened
    succeeds. *)
Record World : Type := mkWorld {
  files : list (string * string);
  dirs : list string;
  console : list output;
  os_refuses : string -> option exn
}.

(** A world with nothing in it and an operating system that refuses
    nothing. *)
Definition empty_world : World := mkWorld [] [] [] (fun _ => None).

Definition io (A : Type) : Type := World -> World * result A.

Definition ret {A : Type} (a : A) : io A := fun w => (w, Ok a).
Definition throw {A : Type} (e : exn) : io A := fun w => (w, Raise e).
Definition lift {A : Type} (r : result A) : io A := fun w => (w, r).

Definition bind {A B : Type} (c : io A) (k : A -> io B) : io B :=
  fun w =>
    match c w with
    | (w', Ok a) => k a w'
    | (w', Raise e) => (w', Raise e)
    end.

Notation "x <- c ;; k" := (bind c (fun x => k))
  (at level 61, c at next level, right associativity).
Notation "c ;; k" := (bind c (fun _ => k))
  (at level 61, right associativity).

(** The text of the file at [path], when the file exists. *)
Fixpoint file_content (path : string) (fs : list (string * string)) : option string :=
  match fs with
  | [] => None
  | (p, body) :: fs' =>
      if String.eqb p path then Some body else file_content path fs'
  end.

(** [p] lies below the directory [dir]. *)
Definition below (dir p : string) : bool := startswith (dir ++ "/") p.

(** [p] names a directory: it is one of the directories, or a directory
    or a file lies below it. *)
Definition is_directory (w : World) (p : string) : bool :=
  existsb (fun d => String.eqb d p || below p d) (dirs w)
  || existsb (fun f => below p (fst f)) (files w).

(** [os.makedirs(d, exist_ok=True)]: nothing to do for a directory that
    exists; [FileExistsError] when [d] is a regular file; otherwise the
    directory is made unless the operating system refuses. *)
Definition makedirs (d : string) : io unit :=
  fun w =>
    if String.eqb d "" then (w, Raise (FileNotFoundError d))
    else if is_directory w d then (w, Ok tt)
    else match file_content d (files w) with
         | Some _ => (w, Raise (FileExistsError d))
         | None =>
             match os_refuses w d with
             | Some e => (w, Raise e)
             | None =>
                 (mkWorld (files w) (d :: dirs w) (console w) (os_refuses w), Ok tt)
             end
         end.

Fixpoint file_append (path text : string) (fs : list (string * string))
  : list (string * string) :=
  match fs with
  | [] => [(path, text)]
  | (p, body) :: fs' =>
      if String.eqb p path then (p, body ++ text) :: fs'
      else (p, body) :: file_append path text fs'
  end.

(** The path ends with a slash. *)
Fixpoint ends_with_slash (p : string) : bool :=
  match p with
  | EmptyString => false
  | String c EmptyString => is_slash c
  | String _ p' => ends_with_slash p'
  end.

(** [open(path, 'a', encoding='utf8')]: [IsADirectoryError] for a path
    that ends with a slash or names a directory; otherwise the file is
    created when it is missing, unless the operating system refuses. *)
Definition open_append (path : string) : io unit :=
  fun w =>
    if ends_with_slash path || is_directory w path
    then (w, Raise (IsADirectoryError path))
    else match os_refuses w path with
         | Some e => (w, Raise e)
         | None =>
             (mkWorld (file_append path "" (files w)) (dirs w) (console w)
                      (os_refuses w), Ok tt)
         end.

(** [file.write(text)] on the file opened at [path]. *)
Definition append_file (path text : string) : io unit :=
  fun w =>
    (mkWorld (file_append path text (files w)) (dirs w) (console w)
             (os_refuses w), Ok tt).

(** [print(line)] *)
Definition print (line : string) : io unit :=
  fun w =>
    (mkWorld (files w) (dirs w) (console w ++ [Printed line]) (os_refuses w), Ok tt).

(** [write(filename, string)].  Either argument can be [None]: the path
    builder and the audit formatters return it for a kind they do not
    know. *)
Definition write (filename : option string) (line : option string) : io unit :=
  match filename with
  | None => throw (TypeError "expected str, bytes or os.PathLike object, not NoneType")
  | Some path =>
      makedirs (dirname path) ;;
      open_append path ;;
      match line with
      | None => throw (TypeError "unsupported operand type(s) for +: 'NoneType' and 'str'")
      | Some text => append_file path (text ++ NL)
      end
  end.

(** [guild and guild.id in IGNORE_GUILDS], for a guild object (which is
    truthy). *)
Definition guild_ignored (ns : Namespace) (guild : Guild) : io bool :=
  match ns_IGNORE_GUILDS ns with
  | None => throw (NameError "IGNORE_GUILDS")
  | Some ignore => ret (int_in (guild_id guild) ignore)
  end.






(** The directory the log files of a channel are in: there is one for a
    guild text channel and for a group channel with a name. *)
Definition channel_dir (cfg : Config) (ch : Channel) : option string :=
  match ch with
  | TextChannel name id guild =>
      Some (log_dir cfg ++ "/" ++ clean_filename (guild_name guild) ++ "-" ++
            str_of_int (guild_id guild) ++ "/#" ++ clean_filename name ++ "-" ++
            str_of_int id)
  | DMChannel _ _ => None
  | GroupChannel (Some name) id =>
      Some (log_dir cfg ++ "/DM/" ++ clean_filename name ++ "-" ++ str_of_int id)
  | GroupChannel None _ => None
  | OtherChannel _ => None
  end.

(** What identifies the place a channel is logged to: the identifiers of
    guild and channel for a guild text channel; for a direct or group
    conversation, both meant to be kept under [DM], the identifier of the
    peer or of the group. *)
Inductive bucket : Type :=
| GuildBucket (guild channel : Z)
| DMBucket (id : Z).

Definition channel_bucket (ch : Channel) : option bucket :=
  match ch with
  | TextChannel _ id guild => Some (GuildBucket (guild_id guild) id)
  | DMChannel recipient _ => Some (DMBucket (user_id recipient))
  | GroupChannel _ id => Some (DMBucket id)
  | OtherChannel _ => None
  end.

(** The identifiers a channel's path is built from are not negative (the
    platform's identifiers are positive). *)
Definition ids_nonneg (ch : Channel) : Prop :=
  match ch with
  | TextChannel _ id guild => (0 <= guild_id guild)%Z /\ (0 <= id)%Z
  | DMChannel recipient _ => (0 <= user_id recipient)%Z
  | GroupChannel _ id => (0 <= id)%Z
  | OtherChannel _ => True
  end.


(** The paths a world holds: the files that exist, in order of creation,
    and the directories made for them. *)
Definition log_paths (w : World) : list string * list string :=
  (map fst (files w), dirs w).

Section Dispatcher.

Variable astimezone_local : datetime -> datetime.
Variable ns : Namespace.
Variable cfg : Config.

(** [on_message(message)] *)
Definition on_message (message : Message) : io unit :=
  let ignored :=
    match message_guild message with
    | Some g => int_in (guild_id g) (ignore_servers cfg)
    | None => false
    end in
  if ignored then ret tt
  else
    filename <- lift (make_filename cfg message) ;;
    string <- lift (make_message astimezone_local cfg message) ;;
    write filename (Some string) ;;
    print string.

(** [on_message_edit(_, message)] *)
Definition on_message_edit (before message : Message) : io unit :=
  let ignored :=
    match message_guild message with
    | Some g => int_in (guild_id g) (ignore_servers cfg)
    | None => false
    end in
  if ignored then ret tt
  else
    filename <- lift (make_filename cfg message) ;;
    string <- lift (make_message astimezone_local cfg message) ;;
    write filename (Some string) ;;
    print string.

(** The clock is read once for the path ([now]) and once more for the
    line ([now']). *)
Variables now now' : datetime.

(** The body shared by the two ban handlers after [event] is set. *)
Definition ban_handler (event : string) (guild : Guild) (user : User) : io unit :=
  ignored <- guild_ignored ns guild ;;
  if ignored then ret tt
  else
    filename <- lift (make_audit_filename ns cfg now event guild) ;;
    string <- lift (make_audit_ban astimezone_local ns cfg now' event guild user) ;;
    write (Some filename) string.

(** [on_member_ban(guild, member)] *)
Definition on_member_ban (guild : Guild) (member : User) : io unit :=
  ban_handler "on_member_ban" guild member.

(** [on_member_unban(guild, user)] *)
Definition on_member_unban (guild : Guild) (user : User) : io unit :=
  ban_handler "on_member_unban" guild user.

(** The body shared by the guild handlers that log the guild they are
    given. *)
Definition guild_handler (event : string) (guild : Guild) : io unit :=
  ignored <- guild_ignored ns guild ;;
  if ignored then ret tt
  else
    filename <- lift (make_audit_filename ns cfg now event guild) ;;
    string <- lift (make_audit astimezone_local ns cfg now' event guild) ;;
    write (Some filename) string.

(** [on_guild_available(guild)] *)
Definition on_guild_available (guild : Guild) : io unit :=
  guild_handler "on_guild_available" guild.

(** [on_guild_unavailable(guild)]: after the ignore test it looks the
    guild up with [utils.find(..., discord.Client.guilds)]; the second
    argument is a property object of the class, which cannot be
    iterated. *)
Definition on_guild_unavailable (guild : Guild) : io unit :=
  ignored <- guild_ignored ns guild ;;
  if ignored then ret tt
  else if ns_utils ns
  then throw (TypeError "'property' object is not iterable")
  else throw (NameError "utils").

(** [on_guild_remove(guild)] *)
Definition on_guild_remove (guild : Guild) : io unit :=
  guild_handler "on_guild_remove" guild.

(** [on_guild_add(guild)] *)
Definition on_guild_add (guild : Guild) : io unit :=
  guild_handler "on_guild_add" guild.

(** The events the program has a handler for. *)
Inductive Event : Type :=
| EvMessage (message : Message)
| EvMessageEdit (before after : Message)
| EvMemberBan (guild : Guild) (user : User)
| EvMemberUnban (guild : Guild) (user : User)
| EvGuildAvailable (guild : Guild)
| EvGuildUnavailable (guild : Guild)
| EvGuildRemove (guild : Guild)
| EvGuildAdd (guild : Guild).

Definition handler_name (ev : Event) : string :=
  match ev with
  | EvMessage _ => "on_message"
  | EvMessageEdit _ _ => "on_message_edit"
  | EvMemberBan _ _ => "on_member_ban"
  | EvMemberUnban _ _ => "on_member_unban"
  | EvGuildAvailable _ => "on_guild_available"
  | EvGuildUnavailable _ => "on_guild_unavailable"
  | EvGuildRemove _ => "on_guild_remove"
  | EvGuildAdd _ => "on_guild_add"
  end.

Definition handler (ev : Event) : io unit :=
  match ev with
  | EvMessage m => on_message m
  | EvMessageEdit b a => on_message_edit b a
  | EvMemberBan g u => on_member_ban g u
  | EvMemberUnban g u => on_member_unban g u
  | EvGuildAvailable g => on_guild_available g
  | EvGuildUnavailable g => on_guild_unavailable g
  | EvGuildRemove g => on_guild_remove g
  | EvGuildAdd g => on_guild_add g
  end.

(** The guild an event carries, if any. *)
Definition event_guild (ev : Event) : option Guild :=
  match ev with
  | EvMessage m => message_guild m
  | EvMessageEdit _ a => message_guild a
  | EvMemberBan g _ => Some g
  | EvMemberUnban g _ => Some g
  | EvGuildAvailable g => Some g
  | EvGuildUnavailable g => Some g
  | EvGuildRemove g => Some g
  | EvGuildAdd g => Some g
  end.

(** How the gateway client runs a handler registered with
    [@client.event]: an exception that escapes it is caught and
    reported on standard error by the client's default [on_error]
    ("Ignoring exception in ..." and the traceback); the event loop
    goes on. *)
Definition dispatch (ev : Event) (w : World) : World :=
  match handler ev w with
  | (w', Ok _) => w'
  | (w', Raise e) =>
      mkWorld (files w') (dirs w') (console w' ++ [Traceback (handler_name ev) e])
              (os_refuses w')
  end.

End Dispatcher.

(** * Properties *)

(** ** Strings *)

Lemma str_app_assoc (a b c : string) : (a ++ b) ++ c = a ++ (b ++ c).
Proof. induction a as [|x a IH]; simpl; [reflexivity | now rewrite IH]. Qed.

Lemma str_app_nil_r (a : string) : a ++ "" = a.
Proof. induction a as [|x a IH]; simpl; [reflexivity | now rewrite IH]. Qed.

Lemma str_length_app (a b : string) :
  String.length (a ++ b) = String.length a + String.length b.
Proof. induction a as [|x a IH]; simpl; [reflexivity | now rewrite IH]. Qed.

Lemma str_forallb_app (p : ascii -> bool) (a b : string) :
  str_forallb p (a ++ b) = str_forallb p a && str_forallb p b.
Proof.
  induction a as [|x a IH]; simpl; [reflexivity|].
  now rewrite IH, andb_assoc.
Qed.

Lemma str_forallb_impl (p q : ascii -> bool) (s : string) :
  (forall c, p c = true -> q c = true) ->
  str_forallb p s = true -> str_forallb q s = true.
Proof.
  intros Hpq. induction s as [|x s IH]; simpl; [reflexivity|].
  intros H. apply andb_true_iff in H as [Hx Hs].
  now rewrite (Hpq _ Hx), (IH Hs).
Qed.

Lemma str_filter_id (keep : ascii -> bool) (s : string) :
  str_forallb keep s = true -> str_filter keep s = s.
Proof.
  induction s as [|x s IH]; simpl; [reflexivity|].
  intros H. apply andb_true_iff in H as [Hx Hs].
  now rewrite Hx, (IH Hs).
Qed.

Lemma str_filter_forallb (keep : ascii -> bool) (s : string) :
  str_forallb keep (str_filter keep s) = true.
Proof.
  induction s as [|x s IH]; simpl; [reflexivity|].
  destruct (keep x) eqn:Hx; simpl; [now rewrite Hx|assumption].
Qed.

Lemma str_filter_length (keep : ascii -> bool) (s : string) :
  String.length (str_filter keep s) + str_count (fun c => negb (keep c)) s
  = String.length s.
Proof.
  induction s as [|x s IH]; simpl; [reflexivity|].
  destruct (keep x); simpl; lia.
Qed.

Lemma str_count_ext (p q : ascii -> bool) (s : string) :
  (forall c, p c = q c) -> str_count p s = str_count q s.
Proof.
  intros E. induction s as [|x s IH]; simpl; [reflexivity|].
  now rewrite E, IH.
Qed.

(** ** Filename Sanitizer *)

(** The bracket expression of the source matches exactly the characters
    the specification lists. *)
Lemma filename_class_spec (c : ascii) :
  class_matches filename_class c = spec_removed c.
Proof.
  destruct c as [[] [] [] [] [] [] [] []]; vm_compute; reflexivity.
Qed.

Lemma re_sub_class_delete (cls : list class_item) (s : string) :
  re_sub_class cls "" s = str_filter (fun c => negb (class_matches cls c)) s.
Proof.
  induction s as [|x s IH]; simpl; [reflexivity|].
  destruct (class_matches cls x); simpl; now rewrite IH.
Qed.

Lemma str_filter_ext (p q : ascii -> bool) (s : string) :
  (forall c, p c = q c) -> str_filter p s = str_filter q s.
Proof.
  intros E. induction s as [|x s IH]; simpl; [reflexivity|].
  now rewrite E, IH.
Qed.

Lemma clean_filename_filter (s : string) :
  clean_filename s = str_filter (fun c => negb (spec_removed c)) s.
Proof.
  unfold clean_filename. rewrite re_sub_class_delete.
  apply str_filter_ext. intros c. now rewrite filename_class_spec.
Qed.

(** C3. For every string, [clean_filename] deletes exactly the characters
    of the listed class (the nine punctuation characters and the control
    characters 0x00-0x1F): the result is the input with those characters
    filtered out, every other character kept in its place and order; the
    result is shortened by the number of deleted characters and by nothing
    else, and holds no character of the class. *)
Theorem clean_filename_removes_exactly (s : string) :
  clean_filename s = str_filter (fun c => negb (spec_removed c)) s
  /\ String.length (clean_filename s) + str_count spec_removed s = String.length s
  /\ str_forallb (fun c => negb (spec_removed c)) (clean_filename s) = true.
Proof.
  rewrite clean_filename_filter. split; [reflexivity|]. split.
  - rewrite <- (str_filter_length (fun c => negb (spec_removed c)) s).
    f_equal. apply str_count_ext. intros c. now rewrite negb_involutive.
  - apply str_filter_forallb.
Qed.

Example clean_filename_example :
  clean_filename ("a/b\c:d*e?f" ++ String DQUOTE "g<h>i|j" ++ String "009" "k" ++ NL ++ " l.m")
  = "abcdefghijk l.m".
Proof. reflexivity. Qed.

(** C10. [clean_filename] is idempotent: cleaning a cleaned string changes
    nothing, for every string [s]; and it is the identity on every string
    [t] that holds none of the removed characters. *)
Theorem clean_filename_idempotent (s t : string) :
  str_forallb (fun c => negb (spec_removed c)) t = true ->
  clean_filename (clean_filename s) = clean_filename s
  /\ clean_filename t = t.
Proof.
  intros H. split.
  - rewrite (clean_filename_filter (clean_filename s)).
    apply str_filter_id.
    rewrite clean_filename_filter. apply str_filter_forallb.
  - rewrite clean_filename_filter. now apply str_filter_id.
Qed.

Lemma clean_filename_idempotent_witness :
  str_forallb (fun c => negb (spec_removed c)) "general-chat" = true
  /\ clean_filename (clean_filename "a/b:c") = clean_filename "a/b:c"
  /\ clean_filename "general-chat" = "general-chat".
Proof.
  split; [reflexivity|].
  apply (clean_filename_idempotent "a/b:c" "general-chat"). reflexivity.
Defined.

(** ** Characters of the formatted pieces *)

Lemma has_slash_forallb (s : string) :
  has_slash s = negb (str_forallb not_slash s).
Proof.
  induction s as [|x s IH]; simpl; [reflexivity|].
  unfold not_slash at 1. rewrite IH.
  destruct (is_slash x), (str_forallb not_slash s); reflexivity.
Qed.

Lemma has_slash_app (a b : string) :
  has_slash (a ++ b) = has_slash a || has_slash b.
Proof.
  induction a as [|x a IH]; simpl; [reflexivity|].
  now rewrite IH, orb_assoc.
Qed.

Lemma digits_of_uint (d : Decimal.uint) :
  str_forallb is_digit (NilEmpty.string_of_uint d) = true.
Proof. induction d; simpl; auto. Qed.

Lemma digits_str_of_nat (n : nat) : str_forallb is_digit (str_of_nat n) = true.
Proof.
  unfold str_of_nat, NilZero.string_of_uint.
  destruct (Nat.to_uint n) eqn:E; try reflexivity;
    rewrite <- E; apply digits_of_uint || (simpl; apply digits_of_uint).
Qed.

Lemma digits_zeros (k : nat) : str_forallb is_digit (zeros k) = true.
Proof. induction k; simpl; auto. Qed.

Lemma digits_zfill (w n : nat) : str_forallb is_digit (zfill w (str_of_nat n)) = true.
Proof.
  unfold zfill. now rewrite str_forallb_app, digits_zeros, digits_str_of_nat.
Qed.

Lemma digit_not_slash (c : ascii) : is_digit c = true -> not_slash c = true.
Proof. destruct c as [[] [] [] [] [] [] [] []]; vm_compute; congruence. Qed.

Lemma digit_not_LF (c : ascii) : is_digit c = true -> not_LF c = true.
Proof. destruct c as [[] [] [] [] [] [] [] []]; vm_compute; congruence. Qed.

Lemma strftime_F_no_slash (t : datetime) :
  str_forallb not_slash (strftime_F t) = true.
Proof.
  unfold strftime_F.
  repeat (rewrite str_forallb_app; apply andb_true_iff; split);
    try reflexivity;
    apply (str_forallb_impl is_digit _ _ digit_not_slash), digits_zfill.
Qed.

Lemma strftime_HMS_no_LF (t : datetime) :
  str_forallb not_LF (strftime_HMS t) = true.
Proof.
  unfold strftime_HMS.
  repeat (rewrite str_forallb_app; apply andb_true_iff; split);
    try reflexivity;
    apply (str_forallb_impl is_digit _ _ digit_not_LF), digits_zfill.
Qed.

(** ** Paths *)

Lemma basename_app (a b : string) :
  has_slash b = true -> basename (a ++ b) = basename b.
Proof.
  intros Hb. induction a as [|x a IH]; simpl; [reflexivity|].
  now rewrite has_slash_app, Hb, orb_true_r.
Qed.

Lemma basename_slash (b : string) :
  has_slash b = false -> basename (String "/" b) = b.
Proof. intros Hb. simpl. now rewrite Hb. Qed.

Lemma basename_last (a b : string) :
  has_slash b = false -> basename (a ++ "/" ++ b) = b.
Proof.
  intros Hb. rewrite basename_app.
  - now apply basename_slash.
  - reflexivity.
Qed.

Lemma str_eqb_length (a b : string) :
  String.length a <> String.length b -> String.eqb a b = false.
Proof.
  intros H. apply String.eqb_neq. intros E. now subst.
Qed.

Lemma strip_suffix_app (d suf : string) :
  strip_suffix suf (d ++ suf) = Some d.
Proof.
  induction d as [|x d IH].
  - simpl. destruct suf; simpl; now rewrite ?Ascii.eqb_refl, ?String.eqb_refl.
  - cbn [append strip_suffix].
    rewrite str_eqb_length.
    + now rewrite IH.
    + cbn [String.length]. rewrite str_length_app. lia.
Qed.

Lemma date_bucket_of_path (dir : string) (t : datetime) :
  date_bucket (dir ++ "/" ++ strftime_F t ++ ".log") = Some (strftime_F t).
Proof.
  unfold date_bucket. rewrite basename_last.
  - apply strip_suffix_app.
  - rewrite has_slash_app, has_slash_forallb, strftime_F_no_slash. reflexivity.
Qed.

(** ** Dates *)

Lemma zfill4_digits (y : nat) :
  y < 10 * 1000 ->
  zfill 4 (str_of_nat y)
  = String (digit_char (y / 1000)) (String (digit_char (y / 100))
    (String (digit_char (y / 10)) (String (digit_char y) EmptyString))).
Proof.
  intros H.
  assert (A : forallb
    (fun y => String.eqb (zfill 4 (str_of_nat y))
       (String (digit_char (y / 1000)) (String (digit_char (y / 100))
       (String (digit_char (y / 10)) (String (digit_char y) EmptyString)))))
    (seq 0 (10 * 1000)) = true) by (vm_compute; reflexivity).
  rewrite forallb_forall in A. apply String.eqb_eq, A, in_seq. lia.
Qed.

Lemma zfill2_digits (n : nat) :
  n <= 99 ->
  zfill 2 (str_of_nat n)
  = String (digit_char (n / 10)) (String (digit_char n) EmptyString).
Proof.
  intros H.
  assert (A : forallb
    (fun n => String.eqb (zfill 2 (str_of_nat n))
       (String (digit_char (n / 10)) (String (digit_char n) EmptyString)))
    (seq 0 100) = true) by (vm_compute; reflexivity).
  rewrite forallb_forall in A. apply String.eqb_eq, A, in_seq. lia.
Qed.

(** For a date of the calendar, [%F] writes [YYYY-MM-DD]. *)
Lemma strftime_F_iso (t : datetime) :
  valid_date t -> strftime_F t = iso_date (year t) (month t) (day t).
Proof.
  intros (Hy & Hm & Hd). unfold strftime_F, iso_date.
  rewrite zfill4_digits, !zfill2_digits by lia. reflexivity.
Qed.

Lemma number2_year (y : nat) :
  y < 10 * 1000 ->
  exists yh yl,
    number2 (digit_char (y / 1000)) (digit_char (y / 100)) = Some yh
    /\ number2 (digit_char (y / 10)) (digit_char y) = Some yl
    /\ 100 * yh + yl = y.
Proof.
  intros H.
  assert (A : forallb
    (fun y => match number2 (digit_char (y / 1000)) (digit_char (y / 100)),
                    number2 (digit_char (y / 10)) (digit_char y) with
              | Some yh, Some yl => Nat.eqb (100 * yh + yl) y
              | _, _ => false
              end)
    (seq 0 (10 * 1000)) = true) by (vm_compute; reflexivity).
  rewrite forallb_forall in A. specialize (A y). rewrite in_seq in A.
  specialize (A ltac:(lia)).
  destruct (number2 (digit_char (y / 1000)) (digit_char (y / 100))) as [yh|];
    [|discriminate].
  destruct (number2 (digit_char (y / 10)) (digit_char y)) as [yl|];
    [|discriminate].
  exists yh, yl. apply Nat.eqb_eq in A. auto.
Qed.

Lemma number2_digits (n : nat) :
  n <= 99 -> number2 (digit_char (n / 10)) (digit_char n) = Some n.
Proof.
  intros H.
  assert (A : forallb
    (fun n => match number2 (digit_char (n / 10)) (digit_char n) with
              | Some k => Nat.eqb k n
              | None => false
              end)
    (seq 0 100) = true) by (vm_compute; reflexivity).
  rewrite forallb_forall in A. specialize (A n). rewrite in_seq in A.
  specialize (A ltac:(lia)).
  destruct (number2 (digit_char (n / 10)) (digit_char n)) as [k|]; [|discriminate].
  apply Nat.eqb_eq in A. now subst k.
Qed.

(** The date can be read back from its [YYYY-MM-DD] form, so two days
    never have the same form. *)
Lemma parse_iso_date_iso (y m d : nat) :
  y < 10 * 1000 -> m <= 99 -> d <= 99 ->
  parse_iso_date (iso_date y m d) = Some (y, m, d).
Proof.
  intros Hy Hm Hd. unfold iso_date, parse_iso_date.
  destruct (number2_year y Hy) as (yh & yl & -> & -> & E).
  rewrite (number2_digits m Hm), (number2_digits d Hd).
  replace (is_dash "-") with true by reflexivity. cbn [andb]. now rewrite E.
Qed.

(** ** Path Builder *)

Lemma make_filename_shape (cfg : Config) (m : Message) :
  match make_filename cfg m with
  | Ok (Some p) =>
      exists dir, p = dir ++ "/" ++ strftime_F (effective_timestamp m) ++ ".log"
  | Ok None => exists og, message_channel m = OtherChannel og
  | Raise _ =>
      (exists r id, message_channel m = DMChannel r id)
      \/ (exists id, message_channel m = GroupChannel None id)
  end.
Proof.
  unfold make_filename, effective_timestamp.
  destruct (message_channel m) as [name id g | u id | [name|] id | og];
    cbn [rbind DMChannel_user re_string].
  - eexists (log_dir cfg ++ "/" ++ clean_filename (guild_name g) ++ "-" ++
             str_of_int (guild_id g) ++ "/#" ++ clean_filename name ++ "-" ++
             str_of_int id).
    now rewrite !str_app_assoc.
  - left. now exists u, id.
  - eexists (log_dir cfg ++ "/DM/" ++ clean_filename name ++ "-" ++ str_of_int id).
    now rewrite !str_app_assoc.
  - right. now exists id.
  - now exists og.
Qed.

(** C1. For a message whose effective timestamp, the edit time when the
    message has one and the creation time otherwise, is a date of the
    calendar, the date bucket of the path [make_filename] returns is that
    date written [YYYY-MM-DD], from which year, month and day can be read
    back (so two days never share a bucket).  No path is returned for a
    channel of an unrecognised class, and building the path fails for a
    direct-message channel and for a group without a name.  A guild-text
    message always gets a path: it is bucketed by its creation date when
    it has no edit time and by its edit date when it has one. *)
Theorem make_filename_date_bucket (cfg : Config) (m : Message) :
  let t := match edited_at m with
           | Some edit => edit
           | None => created_at m
           end in
  valid_date t ->
  match make_filename cfg m with
  | Ok (Some p) =>
      date_bucket p = Some (iso_date (year t) (month t) (day t))
      /\ match date_bucket p with
         | Some bucket => parse_iso_date bucket = Some (year t, month t, day t)
         | None => False
         end
  | Ok None => exists og, message_channel m = OtherChannel og
  | Raise _ =>
      (exists r id, message_channel m = DMChannel r id)
      \/ (exists id, message_channel m = GroupChannel None id)
  end
  /\ (forall name cid g,
        message_channel m = TextChannel name cid g ->
        exists dir,
          make_filename cfg m
          = Ok (Some (dir ++ "/" ++ iso_date (year t) (month t) (day t) ++ ".log"))).
Proof.
  intros t V. split.
  - pose proof (make_filename_shape cfg m) as H.
    destruct (make_filename cfg m) as [[p|]|e]; try exact H.
    destruct H as [dir ->].
    rewrite date_bucket_of_path. unfold effective_timestamp. fold t.
    rewrite (strftime_F_iso t V). split; [reflexivity|].
    destruct V as (Hy & Hm & Hd). apply parse_iso_date_iso; lia.
  - intros name cid g E. unfold make_filename. rewrite E. fold t.
    rewrite (strftime_F_iso t V).
    eexists (log_dir cfg ++ "/" ++ clean_filename (guild_name g) ++ "-" ++
             str_of_int (guild_id g) ++ "/#" ++ clean_filename name ++ "-" ++
             str_of_int cid).
    now rewrite !str_app_assoc.
Qed.

Lemma make_filename_date_bucket_witness :
  let g := mkGuild "My Guild" 42 in
  let u := mkUser "alice" "0001" 7 in
  let created := mkDatetime 2020 2 29 23 59 59 in
  let edit := mkDatetime 2020 3 1 0 0 1 in
  let cfg := mkConfig "logs" true [] in
  let m := mkMessage 1 (TextChannel "gen:eral" 5 g) u created (Some edit) "hi" [] in
  valid_date edit
  /\ exists dir,
       make_filename cfg m = Ok (Some (dir ++ "/" ++ "2020-03-01" ++ ".log")).
Proof.
  intros g u created edit cfg m.
  assert (V : valid_date edit) by (cbv; repeat split; lia).
  split; [exact V|].
  exact (proj2 (make_filename_date_bucket cfg m V) "gen:eral" 5%Z g eq_refl).
Defined.

(** A message created one second before midnight and edited two seconds
    later lands in the file of the next day. *)
Example make_filename_day_boundary :
  let g := mkGuild "My Guild" 42 in
  let u := mkUser "alice" "0001" 7 in
  let created := mkDatetime 2020 2 29 23 59 59 in
  let edit := mkDatetime 2020 3 1 0 0 1 in
  let cfg := mkConfig "logs" true [] in
  make_filename cfg (mkMessage 1 (TextChannel "gen:eral" 5 g) u created None "hi" [])
    = Ok (Some "logs/My Guild-42/#general-5/2020-02-29.log")
  /\ make_filename cfg (mkMessage 1 (TextChannel "gen:eral" 5 g) u created (Some edit) "hi" [])
    = Ok (Some "logs/My Guild-42/#general-5/2020-03-01.log")
  /\ make_filename cfg (mkMessage 1 (DMChannel u 11) u created None "hi" [])
    = Raise (AttributeError "'DMChannel' object has no attribute 'user'")
  /\ make_filename cfg (mkMessage 1 (GroupChannel (Some "friends") 11) u created None "hi" [])
    = Ok (Some "logs/DM/friends-11/2020-02-29.log").
Proof. repeat split. Qed.

Example date_bucket_example :
  date_bucket "logs/My Guild-42/#general-5/2020-02-29.log" = Some "2020-02-29"
  /\ dirname "logs/My Guild-42/#general-5/2020-02-29.log"
     = "logs/My Guild-42/#general-5"
  /\ parse_iso_date "2020-02-29" = Some (2020, 2, 29).
Proof. repeat split. Qed.

(** ** Message identifier token *)

Lemma le_bytes_length (k : nat) (n : Z) : List.length (le_bytes k n) = k.
Proof. revert n. induction k as [|k IH]; intros n; simpl; [reflexivity | now rewrite IH]. Qed.

Lemma le_bytes_range (k : nat) (n : Z) :
  Forall (fun b => 0 <= b < 256)%Z (le_bytes k n).
Proof.
  revert n. induction k as [|k IH]; intros n; simpl; constructor; [|apply IH].
  change 255%Z with (Z.ones 8). rewrite Z.land_ones by lia.
  change (2 ^ 8)%Z with 256%Z. apply Z.mod_pos_bound. lia.
Qed.

Lemma le_value_le_bytes (k : nat) (n : Z) :
  le_value (le_bytes k n) = (n mod 2 ^ (8 * Z.of_nat k))%Z.
Proof.
  revert n. induction k as [|k IH]; intros n.
  - simpl. now rewrite Z.mod_1_r.
  - cbn [le_bytes le_value]. rewrite IH.
    change 255%Z with (Z.ones 8). rewrite Z.land_ones by lia.
    rewrite Z.shiftr_div_pow2 by lia.
    replace (8 * Z.of_nat (S k))%Z with (8 + 8 * Z.of_nat k)%Z by lia.
    rewrite Z.pow_add_r by lia.
    rewrite Z.rem_mul_r by lia. reflexivity.
Qed.

Lemma to_bytes_little_ok (k : nat) (n : Z) :
  (0 <= n < 2 ^ (8 * Z.of_nat k))%Z ->
  to_bytes_little k n = Ok (le_bytes k n).
Proof.
  intros [H0 H1]. unfold to_bytes_little.
  destruct (Z.ltb_spec n 0); [lia|].
  destruct (Z.leb_spec (2 ^ (8 * Z.of_nat k)) n); [lia|]. reflexivity.
Qed.

Lemma str_get_forallb (p : ascii -> bool) (s : string) (k : nat) (c : ascii) :
  str_forallb p s = true -> String.get k s = Some c -> p c = true.
Proof.
  revert k. induction s as [|x s IH]; intros k Hs Hg; [discriminate|].
  simpl in Hs. apply andb_true_iff in Hs as [Hx Hs].
  destruct k as [|k]; simpl in Hg.
  - now inversion Hg; subst.
  - eauto.
Qed.

Lemma b64_char_forallb (p : ascii -> bool) (n : Z) :
  str_forallb p b64_alphabet = true -> p "="%char = true -> p (b64_char n) = true.
Proof.
  intros Ha Hp. unfold b64_char.
  destruct (String.get (Z.to_nat n) b64_alphabet) eqn:E; [|exact Hp].
  eapply str_get_forallb; eauto.
Qed.

Lemma b64_char_not_colon (n : Z) : Ascii.eqb ":"%char (b64_char n) = false.
Proof.
  apply negb_true_iff.
  now apply (b64_char_forallb (fun c => negb (Ascii.eqb ":"%char c))).
Qed.

Lemma b64_char_not_LF (n : Z) : not_LF (b64_char n) = true.
Proof. now apply (b64_char_forallb not_LF). Qed.

Lemma message_id_token_ok (m : Message) :
  (0 <= message_id m < 2 ^ 64)%Z ->
  message_id_token m =
  Ok (match edited_at m with Some _ => "[E:" | None => "[" end
      ++ b64encode (le_bytes 8 (message_id m)) ++ "]").
Proof.
  intros H. unfold message_id_token.
  now rewrite to_bytes_little_ok by (change (8 * Z.of_nat 8)%Z with 64%Z; exact H).
Qed.

Lemma fold_left_raise (atts : list Attachment) (e : exn) :
  fold_left
    (fun acc attach =>
       rbind acc (fun attachments =>
       rbind (Attachment_getitem attach "url") (fun url =>
       Ok (attachments ++ NL ++ "(attach) " ++ url))))
    atts (Raise e) = Raise e.
Proof. induction atts as [|a atts IH]; [reflexivity | exact IH]. Qed.

(** The loop over the attachments gives the empty string when there is
    none and fails at the first one otherwise. *)
Lemma message_attachments_cases (m : Message) :
  match attachments m with
  | [] => message_attachments m = Ok ""
  | _ :: _ =>
      message_attachments m
      = Raise (TypeError "'Attachment' object is not subscriptable")
  end.
Proof.
  unfold message_attachments. destruct (attachments m) as [|a atts]; [reflexivity|].
  cbn [fold_left rbind Attachment_getitem]. apply fold_left_raise.
Qed.

Lemma make_message_ok (tz : datetime -> datetime) (cfg : Config) (m : Message) :
  (0 <= message_id m < 2 ^ 64)%Z ->
  attachments m = [] ->
  make_message tz cfg m =
  Ok ((match edited_at m with Some _ => "[E:" | None => "[" end
       ++ b64encode (le_bytes 8 (message_id m)) ++ "]")
      ++ " " ++ message_timestamp tz cfg m ++ " " ++ message_author_tag m ++ " "
      ++ message_content m ++ " " ++ "").
Proof.
  intros H E. unfold make_message. rewrite message_id_token_ok by exact H.
  pose proof (message_attachments_cases m) as A. rewrite E in A.
  now rewrite A.
Qed.

Lemma make_message_attachment_error
    (tz : datetime -> datetime) (cfg : Config) (m : Message) :
  (0 <= message_id m < 2 ^ 64)%Z ->
  attachments m <> [] ->
  make_message tz cfg m
  = Raise (TypeError "'Attachment' object is not subscriptable").
Proof.
  intros H E. unfold make_message. rewrite message_id_token_ok by exact H.
  pose proof (message_attachments_cases m) as A.
  destruct (attachments m); [now elim E|]. now rewrite A.
Qed.

(** *** Reading the bytes back from the base64 text *)

Lemma b64_index_char (n : Z) : (0 <= n < 64)%Z -> b64_index (b64_char n) = n.
Proof.
  intros H.
  assert (A : forallb (fun k => Z.eqb (b64_index (b64_char (Z.of_nat k))) (Z.of_nat k))
                      (seq 0 64) = true) by (vm_compute; reflexivity).
  rewrite forallb_forall in A.
  specialize (A (Z.to_nat n)). rewrite Z2Nat.id in A by lia.
  apply Z.eqb_eq, A, in_seq. lia.
Qed.

Lemma b64_char_inj (s s' : Z) :
  (0 <= s < 64)%Z -> (0 <= s' < 64)%Z -> b64_char s = b64_char s' -> s = s'.
Proof.
  intros H H' E. rewrite <- (b64_index_char s H), <- (b64_index_char s' H').
  now rewrite E.
Qed.

(** Bits that do not overlap add up. *)
Lemma lor_shiftl_add (h y k : Z) :
  (0 <= k)%Z -> (0 <= h)%Z -> (0 <= y < 2 ^ k)%Z ->
  Z.lor (Z.shiftl h k) y = (h * 2 ^ k + y)%Z.
Proof.
  intros Hk Hh Hy. rewrite <- Z.shiftl_mul_pow2 by exact Hk.
  rewrite <- Z.lxor_lor, <- Z.add_nocarry_lxor; try reflexivity;
    apply Z.bits_inj'; intros i Hi; rewrite Z.land_spec, Z.bits_0;
    destruct (Z.lt_ge_cases i k) as [Hlt|Hge];
    try (rewrite Z.shiftl_spec_low by exact Hlt; reflexivity);
    rewrite <- (Z.mod_small y (2 ^ k)) by exact Hy;
    rewrite Z.mod_pow2_bits_high by lia; apply andb_false_r.
Qed.

Lemma sextets_arith (a b : Z) :
  (0 <= a < 256)%Z -> (0 <= b < 256)%Z ->
  Z.shiftr a 2 = (a / 4)%Z
  /\ Z.lor (Z.shiftl (Z.land a 3) 4) (Z.shiftr b 4) = (a mod 4 * 16 + b / 16)%Z
  /\ Z.lor (Z.shiftl (Z.land a 15) 2) (Z.shiftr b 6) = (a mod 16 * 4 + b / 64)%Z
  /\ Z.land a 63 = (a mod 64)%Z
  /\ Z.shiftl (Z.land a 15) 2 = (a mod 16 * 4)%Z.
Proof.
  intros Ha Hb.
  change 3%Z with (Z.ones 2). change 15%Z with (Z.ones 4).
  change 63%Z with (Z.ones 6).
  rewrite !Z.land_ones, !Z.shiftr_div_pow2 by lia.
  change (2 ^ 2)%Z with 4%Z. change (2 ^ 4)%Z with 16%Z.
  change (2 ^ 6)%Z with 64%Z.
  repeat split.
  - rewrite lor_shiftl_add; [reflexivity | lia | |];
      change (2 ^ 4)%Z with 16%Z; Z.div_mod_to_equations; lia.
  - rewrite lor_shiftl_add; [reflexivity | lia | |];
      change (2 ^ 2)%Z with 4%Z; Z.div_mod_to_equations; lia.
  - now rewrite Z.shiftl_mul_pow2 by lia.
Qed.

Lemma b64_triple_inj (a b c a' b' c' : Z) (rest rest' : string) :
  (0 <= a < 256)%Z -> (0 <= b < 256)%Z -> (0 <= c < 256)%Z ->
  (0 <= a' < 256)%Z -> (0 <= b' < 256)%Z -> (0 <= c' < 256)%Z ->
  String (b64_char (Z.shiftr a 2))
    (String (b64_char (Z.lor (Z.shiftl (Z.land a 3) 4) (Z.shiftr b 4)))
    (String (b64_char (Z.lor (Z.shiftl (Z.land b 15) 2) (Z.shiftr c 6)))
    (String (b64_char (Z.land c 63)) rest)))
  = String (b64_char (Z.shiftr a' 2))
    (String (b64_char (Z.lor (Z.shiftl (Z.land a' 3) 4) (Z.shiftr b' 4)))
    (String (b64_char (Z.lor (Z.shiftl (Z.land b' 15) 2) (Z.shiftr c' 6)))
    (String (b64_char (Z.land c' 63)) rest'))) ->
  a = a' /\ b = b' /\ c = c' /\ rest = rest'.
Proof.
  intros Ha Hb Hc Ha' Hb' Hc' E.
  destruct (sextets_arith a b Ha Hb) as (E1 & E2 & _).
  destruct (sextets_arith b c Hb Hc) as (_ & _ & E3 & _).
  destruct (sextets_arith c c Hc Hc) as (_ & _ & _ & E4 & _).
  destruct (sextets_arith a' b' Ha' Hb') as (E1' & E2' & _).
  destruct (sextets_arith b' c' Hb' Hc') as (_ & _ & E3' & _).
  destruct (sextets_arith c' c' Hc' Hc') as (_ & _ & _ & E4' & _).
  rewrite E1, E2, E3, E4, E1', E2', E3', E4' in E.
  injection E as C1 C2 C3 C4 R.
  assert (J : forall x y, (0 <= x < 64)%Z -> (0 <= y < 64)%Z ->
                          b64_char x = b64_char y -> x = y)
    by (intros; now apply b64_char_inj).
  apply J in C1; [|Z.div_mod_to_equations; lia|Z.div_mod_to_equations; lia].
  apply J in C2; [|Z.div_mod_to_equations; lia|Z.div_mod_to_equations; lia].
  apply J in C3; [|Z.div_mod_to_equations; lia|Z.div_mod_to_equations; lia].
  apply J in C4; [|Z.div_mod_to_equations; lia|Z.div_mod_to_equations; lia].
  repeat split; try exact R; Z.div_mod_to_equations; lia.
Qed.

Lemma b64_pair_inj (a b a' b' : Z) (rest rest' : string) :
  (0 <= a < 256)%Z -> (0 <= b < 256)%Z ->
  (0 <= a' < 256)%Z -> (0 <= b' < 256)%Z ->
  String (b64_char (Z.shiftr a 2))
    (String (b64_char (Z.lor (Z.shiftl (Z.land a 3) 4) (Z.shiftr b 4)))
    (String (b64_char (Z.shiftl (Z.land b 15) 2)) rest))
  = String (b64_char (Z.shiftr a' 2))
    (String (b64_char (Z.lor (Z.shiftl (Z.land a' 3) 4) (Z.shiftr b' 4)))
    (String (b64_char (Z.shiftl (Z.land b' 15) 2)) rest')) ->
  a = a' /\ b = b'.
Proof.
  intros Ha Hb Ha' Hb' E.
  destruct (sextets_arith a b Ha Hb) as (E1 & E2 & _).
  destruct (sextets_arith b b Hb Hb) as (_ & _ & _ & _ & E3).
  destruct (sextets_arith a' b' Ha' Hb') as (E1' & E2' & _).
  destruct (sextets_arith b' b' Hb' Hb') as (_ & _ & _ & _ & E3').
  rewrite E1, E2, E3, E1', E2', E3' in E.
  injection E as C1 C2 C3 _.
  assert (R : forall x y, (0 <= x < 64)%Z -> (0 <= y < 64)%Z ->
                          b64_char x = b64_char y -> x = y)
    by (intros; now apply b64_char_inj).
  apply R in C1; [|Z.div_mod_to_equations; lia|Z.div_mod_to_equations; lia].
  apply R in C2; [|Z.div_mod_to_equations; lia|Z.div_mod_to_equations; lia].
  apply R in C3; [|Z.div_mod_to_equations; lia|Z.div_mod_to_equations; lia].
  split; Z.div_mod_to_equations; lia.
Qed.

Lemma byte_range (x : Z) : (0 <= Z.land x 255 < 256)%Z.
Proof.
  change 255%Z with (Z.ones 8). rewrite Z.land_ones by lia.
  change (2 ^ 8)%Z with 256%Z. apply Z.mod_pos_bound. lia.
Qed.

Lemma token_body_inj (n n' : Z) (tail tail' : string) :
  (0 <= n < 2 ^ 64)%Z -> (0 <= n' < 2 ^ 64)%Z ->
  b64encode (le_bytes 8 n) ++ tail = b64encode (le_bytes 8 n') ++ tail' ->
  n = n'.
Proof.
  intros Hn Hn' E. cbn [le_bytes b64encode append] in E.
  apply b64_triple_inj in E as (B0 & B1 & B2 & E); try apply byte_range.
  apply b64_triple_inj in E as (B3 & B4 & B5 & E); try apply byte_range.
  apply b64_pair_inj in E as (B6 & B7); try apply byte_range.
  assert (B : le_bytes 8 n = le_bytes 8 n')
    by (cbn [le_bytes]; congruence).
  apply (f_equal le_value) in B. rewrite !le_value_le_bytes in B.
  change (8 * Z.of_nat 8)%Z with 64%Z in B.
  now rewrite !Z.mod_small in B by assumption.
Qed.


Lemma b64_char_not_pad (x : Z) :
  (0 <= x < 64)%Z -> Ascii.eqb (b64_char x) "=" = false.
Proof.
  intros H. apply Ascii.eqb_neq. intros E.
  pose proof (b64_index_char x H) as I. rewrite E in I.
  vm_compute in I. lia.
Qed.

Lemma sextet_b64_char (x : Z) : (0 <= x < 64)%Z -> sextet (b64_char x) = Some x.
Proof.
  intros H.
  assert (A : forallb (fun k => match sextet (b64_char (Z.of_nat k)) with
                                | Some v => Z.eqb v (Z.of_nat k)
                                | None => false
                                end)
                      (seq 0 64) = true) by (vm_compute; reflexivity).
  rewrite forallb_forall in A.
  specialize (A (Z.to_nat x)). rewrite Z2Nat.id in A by lia.
  rewrite in_seq in A. specialize (A ltac:(lia)).
  destruct (sextet (b64_char x)) as [v|]; [|discriminate].
  apply Z.eqb_eq in A. now subst v.
Qed.

Lemma b64decode_step (c0 c1 c2 c3 : ascii) (rest : string) :
  b64decode (String c0 (String c1 (String c2 (String c3 rest))))
  = match sextet c0, sextet c1 with
    | Some s0, Some s1 =>
        if Ascii.eqb c2 "="
        then if Ascii.eqb c3 "=" && String.eqb rest ""
             then Some [(s0 * 4 + s1 / 16)%Z] else None
        else
          match sextet c2 with
          | Some s2 =>
              if Ascii.eqb c3 "="
              then if String.eqb rest ""
                   then Some [(s0 * 4 + s1 / 16)%Z; (s1 mod 16 * 16 + s2 / 4)%Z]
                   else None
              else
                match sextet c3, b64decode rest with
                | Some s3, Some bs =>
                    Some ((s0 * 4 + s1 / 16)%Z :: (s1 mod 16 * 16 + s2 / 4)%Z
                          :: (s2 mod 4 * 64 + s3)%Z :: bs)
                | _, _ => None
                end
          | None => None
          end
    | _, _ => None
    end.
Proof. reflexivity. Qed.

Lemma b64decode_triple (a b c : Z) (rest : string) :
  (0 <= a < 256)%Z -> (0 <= b < 256)%Z -> (0 <= c < 256)%Z ->
  b64decode
    (String (b64_char (Z.shiftr a 2))
    (String (b64_char (Z.lor (Z.shiftl (Z.land a 3) 4) (Z.shiftr b 4)))
    (String (b64_char (Z.lor (Z.shiftl (Z.land b 15) 2) (Z.shiftr c 6)))
    (String (b64_char (Z.land c 63)) rest))))
  = match b64decode rest with
    | Some bs => Some (a :: b :: c :: bs)
    | None => None
    end.
Proof.
  intros Ha Hb Hc.
  destruct (sextets_arith a b Ha Hb) as (E1 & E2 & _).
  destruct (sextets_arith b c Hb Hc) as (_ & _ & E3 & _).
  destruct (sextets_arith c c Hc Hc) as (_ & _ & _ & E4 & _).
  rewrite E1, E2, E3, E4, b64decode_step.
  rewrite !sextet_b64_char, !b64_char_not_pad
    by (Z.div_mod_to_equations; lia).
  destruct (b64decode rest) as [bs|]; [|reflexivity].
  f_equal. f_equal; [|f_equal; [|f_equal]]; Z.div_mod_to_equations; lia.
Qed.

Lemma b64decode_pair (a b : Z) :
  (0 <= a < 256)%Z -> (0 <= b < 256)%Z ->
  b64decode
    (String (b64_char (Z.shiftr a 2))
    (String (b64_char (Z.lor (Z.shiftl (Z.land a 3) 4) (Z.shiftr b 4)))
    (String (b64_char (Z.shiftl (Z.land b 15) 2)) "=")))
  = Some [a; b].
Proof.
  intros Ha Hb.
  destruct (sextets_arith a b Ha Hb) as (E1 & E2 & _).
  destruct (sextets_arith b b Hb Hb) as (_ & _ & _ & _ & E3).
  rewrite E1, E2, E3, b64decode_step.
  rewrite !sextet_b64_char, !b64_char_not_pad
    by (Z.div_mod_to_equations; lia).
  change (Ascii.eqb "=" "=") with true. change (String.eqb "" "") with true.
  cbv iota.
  f_equal. f_equal; [|f_equal]; Z.div_mod_to_equations; lia.
Qed.

(** The eight bytes of an identifier come back from their base64 text. *)
Lemma b64decode_le_bytes (n : Z) :
  b64decode (b64encode (le_bytes 8 n)) = Some (le_bytes 8 n).
Proof.
  cbn [le_bytes b64encode].
  rewrite !b64decode_triple by apply byte_range.
  now rewrite b64decode_pair by apply byte_range.
Qed.

(** C4. For a message whose identifier fits 64 bits, the token
    [make_message] computes, and puts at the start of the line it
    returns, is a bracket, [E:] exactly when the message has an edit
    time, the base64 text of the identifier's 8 little-endian bytes and a
    closing bracket.  The bytes are 8, each in 0..255, least significant
    first, standing for the identifier again, and base64 decoding gives
    them back from the 12 characters of the text.  The line is returned
    when the message has no attachment; with one, formatting the
    attachment fails after the token was computed.  The identifier 1 has
    bytes 01 00 00 00 00 00 00 00 and always gives AQAAAAAAAAA=. *)
Theorem make_message_id_token
    (tz : datetime -> datetime) (cfg : Config) (m : Message) :
  (0 <= message_id m < 2 ^ 64)%Z ->
  let bytes := le_bytes 8 (message_id m) in
  let token :=
    match edited_at m with Some _ => "[E:" | None => "[" end
    ++ b64encode bytes ++ "]" in
  message_id_token m = Ok token
  /\ match attachments m with
     | [] => exists rest, make_message tz cfg m = Ok (token ++ " " ++ rest)
     | _ :: _ => exists msg, make_message tz cfg m = Raise (TypeError msg)
     end
  /\ List.length bytes = 8
  /\ Forall (fun b => 0 <= b < 256)%Z bytes
  /\ le_value bytes = message_id m
  /\ b64decode (b64encode bytes) = Some bytes
  /\ String.length (b64encode bytes) = 12
  /\ (startswith "[E:" token = true <-> edited_at m <> None)
  /\ le_bytes 8 1 = [1; 0; 0; 0; 0; 0; 0; 0]%Z
  /\ b64encode (le_bytes 8 1) = "AQAAAAAAAAA=".
Proof.
  intros H bytes token.
  split; [apply (message_id_token_ok m H)|].
  split.
  { destruct (attachments m) as [|a atts] eqn:E.
    - eexists. rewrite (make_message_ok tz cfg m H E). reflexivity.
    - eexists. apply make_message_attachment_error; [exact H|].
      rewrite E. discriminate. }
  split; [apply le_bytes_length|].
  split; [apply le_bytes_range|].
  split.
  { subst bytes. rewrite le_value_le_bytes.
    change (8 * Z.of_nat 8)%Z with 64%Z. apply Z.mod_small. exact H. }
  split; [apply b64decode_le_bytes|].
  split; [reflexivity|].
  split; [|split; reflexivity].
  subst token bytes. destruct (edited_at m) as [e|].
  - split; [discriminate | reflexivity].
  - split; [|congruence].
    cbn [le_bytes b64encode append startswith].
    rewrite b64_char_not_colon. intros E.
    apply andb_true_iff in E as [_ E]. apply andb_true_iff in E as [_ E].
    discriminate E.
Qed.

Lemma make_message_id_token_witness :
  let m := mkMessage 1 (GroupChannel (Some "friends") 11)
                     (mkUser "alice" "0001" 7)
                     (mkDatetime 2020 2 29 23 59 59) None "hi" [] in
  (0 <= message_id m < 2 ^ 64)%Z
  /\ exists rest,
       make_message (fun t => t) (mkConfig "logs" false []) m
       = Ok ("[AQAAAAAAAAA=]" ++ " " ++ rest).
Proof.
  intros m.
  assert (H : (0 <= message_id m < 2 ^ 64)%Z) by (cbn; lia).
  split; [exact H|].
  exact (proj1 (proj2
    (make_message_id_token (fun t => t) (mkConfig "logs" false []) m H))).
Defined.

Example make_message_example :
  make_message (fun t => t) (mkConfig "logs" false [])
    (mkMessage 1 (GroupChannel (Some "friends") 11) (mkUser "alice" "0001" 7)
       (mkDatetime 2020 2 29 23 59 59) (Some (mkDatetime 2020 3 1 0 0 1))
       ("one" ++ NL ++ "two") [])
  = Ok ("[E:AQAAAAAAAAA=] [00:00:01] <alice#0001> one" ++ NL ++
        "(newline) two ")
  /\ make_message (fun t => t) (mkConfig "logs" false [])
       (mkMessage 1 (GroupChannel (Some "friends") 11) (mkUser "alice" "0001" 7)
          (mkDatetime 2020 2 29 23 59 59) None "look"
          [mkAttachment "https://cdn/a.png"])
     = Raise (TypeError "'Attachment' object is not subscriptable")
  /\ b64decode "BwACwVoGcQI=" = Some (le_bytes 8 175928847299117063).
Proof. repeat split. Qed.

(** ** Lines *)

Lemma str_count_app (p : ascii -> bool) (a b : string) :
  str_count p (a ++ b) = str_count p a + str_count p b.
Proof. induction a as [|x a IH]; simpl; [reflexivity | rewrite IH; lia]. Qed.

Lemma split_lines_length (s : string) :
  List.length (split_lines s) = str_count is_LF s + 1.
Proof.
  induction s as [|x s IH]; simpl; [reflexivity|].
  destruct (is_LF x); simpl; [now rewrite IH|].
  destruct (split_lines s); simpl in *; lia.
Qed.

Lemma split_lines_hd_tl (s : string) :
  split_lines s = hd "" (split_lines s) :: tl (split_lines s).
Proof.
  pose proof (split_lines_length s) as H.
  destruct (split_lines s); simpl in *; [lia | reflexivity].
Qed.

Lemma split_lines_cons (c : ascii) (s : string) :
  is_LF c = false ->
  split_lines (String c s) = String c (hd "" (split_lines s)) :: tl (split_lines s).
Proof.
  intros H. cbn [split_lines]. rewrite H.
  now rewrite (split_lines_hd_tl s) at 1.
Qed.

Lemma split_lines_LF (s : string) :
  split_lines (String LF s) = "" :: split_lines s.
Proof. reflexivity. Qed.

(** A piece without newline in front of a text joins the first line. *)
Lemma split_lines_prefix (p s : string) :
  str_forallb not_LF p = true ->
  split_lines (p ++ s) = (p ++ hd "" (split_lines s)) :: tl (split_lines s).
Proof.
  induction p as [|x p IH]; intros H.
  - apply split_lines_hd_tl.
  - simpl in H. apply andb_true_iff in H as [Hx Hp].
    cbn [append]. rewrite split_lines_cons by now apply negb_true_iff.
    now rewrite (IH Hp).
Qed.

Lemma split_lines_single (p : string) :
  str_forallb not_LF p = true -> split_lines p = [p].
Proof.
  intros H. rewrite <- (str_app_nil_r p) at 1.
  rewrite split_lines_prefix by exact H. cbn. now rewrite str_app_nil_r.
Qed.

(** The lines of two texts joined by a newline are the lines of the one
    followed by the lines of the other. *)
Lemma split_lines_join (a b : string) :
  split_lines (a ++ NL ++ b) = (split_lines a ++ split_lines b)%list.
Proof.
  induction a as [|x a IH].
  - reflexivity.
  - cbn [append]. destruct (is_LF x) eqn:E.
    + apply Ascii.eqb_eq in E. subst x. rewrite !split_lines_LF.
      cbn [List.app]. f_equal. exact IH.
    + rewrite !split_lines_cons by exact E. rewrite IH.
      rewrite (split_lines_hd_tl a) at 1 2. reflexivity.
Qed.

(** ** Newlines of the content *)

Lemma mark_nil : mark "" = "".
Proof. reflexivity. Qed.

Lemma mark_LF (s : string) :
  mark (String LF s) = String LF ("(newline) " ++ mark s).
Proof. reflexivity. Qed.

Lemma mark_other (c : ascii) (s : string) :
  is_LF c = false -> mark (String c s) = String c (mark s).
Proof.
  intros H. unfold mark, str_replace, NL. cbn [replace_from startswith].
  unfold is_LF in H. rewrite Ascii.eqb_sym in H. now rewrite H.
Qed.

Lemma mark_count (s : string) : str_count is_LF (mark s) = str_count is_LF s.
Proof.
  induction s as [|x s IH]; [reflexivity|].
  destruct (is_LF x) eqn:E.
  - apply Ascii.eqb_eq in E. subst x. rewrite mark_LF.
    cbn [str_count]. rewrite str_count_app, IH. reflexivity.
  - rewrite mark_other by exact E. cbn [str_count]. now rewrite IH.
Qed.

Lemma mark_lines (s : string) :
  split_lines (mark s) =
  hd "" (split_lines s) :: map (append "(newline) ") (tl (split_lines s)).
Proof.
  induction s as [|x s IH]; [reflexivity|].
  destruct (is_LF x) eqn:E.
  - apply Ascii.eqb_eq in E. subst x. rewrite mark_LF, !split_lines_LF.
    rewrite split_lines_prefix by reflexivity. rewrite IH.
    cbn [hd tl]. rewrite (split_lines_hd_tl s) at 3. reflexivity.
  - rewrite mark_other by exact E. rewrite !split_lines_cons by exact E.
    rewrite IH. reflexivity.
Qed.

Lemma remove_markers_mark (s : string) : remove_markers (mark s) = s.
Proof.
  unfold remove_markers, str_replace, NL. cbn [append].
  induction s as [|x s IH]; [reflexivity|].
  destruct (is_LF x) eqn:E.
  - apply Ascii.eqb_eq in E. subst x. rewrite mark_LF.
    cbn. f_equal. exact IH.
  - rewrite mark_other by exact E. cbn [replace_from startswith].
    unfold is_LF in E. rewrite Ascii.eqb_sym in E. rewrite E. cbn [andb].
    now rewrite IH.
Qed.

(** C5. The content [make_message] puts in the line is the clean content
    with every newline replaced by a newline and the marker [(newline) ]:
    with [k] newlines in the clean content it has [k] newlines and so
    [k + 1] physical lines, the first being the first line of the clean
    content and every later one a later line of the clean content with
    the marker in front; removing the markers gives the clean content
    back.  For a message with a 64-bit identifier and no attachment the
    line is returned, with the content in it before the closing space;
    with an attachment, formatting the attachment fails after the content
    was computed. *)
Theorem make_message_content_newlines
    (tz : datetime -> datetime) (cfg : Config) (m : Message) :
  (0 <= message_id m < 2 ^ 64)%Z ->
  let k := str_count is_LF (clean_content m) in
  let content := str_replace NL (NL ++ "(newline) ") (clean_content m) in
  match attachments m with
  | [] => exists before, make_message tz cfg m = Ok (before ++ content ++ " ")
  | _ :: _ => exists msg, make_message tz cfg m = Raise (TypeError msg)
  end
  /\ str_count is_LF content = k
  /\ List.length (split_lines content) = k + 1
  /\ split_lines content =
     hd "" (split_lines (clean_content m))
     :: map (append "(newline) ") (tl (split_lines (clean_content m)))
  /\ remove_markers content = clean_content m.
Proof.
  intros H k content. fold (mark (clean_content m)) in content.
  split; [|split; [|split; [|split]]].
  - destruct (attachments m) as [|a atts] eqn:E.
    + rewrite (make_message_ok tz cfg m H E).
      exists ((match edited_at m with Some _ => "[E:" | None => "[" end
               ++ b64encode (le_bytes 8 (message_id m)) ++ "]")
              ++ " " ++ message_timestamp tz cfg m ++ " "
              ++ message_author_tag m ++ " ").
      unfold message_content. fold content.
      generalize (match edited_at m with Some _ => "[E:" | None => "[" end
                  ++ b64encode (le_bytes 8 (message_id m)) ++ "]"),
        (message_timestamp tz cfg m), (message_author_tag m), content.
      intros tok ts au co. now rewrite !str_app_assoc.
    + eexists. apply make_message_attachment_error; [exact H|].
      rewrite E. discriminate.
  - apply mark_count.
  - subst content. now rewrite split_lines_length, mark_count.
  - apply mark_lines.
  - apply remove_markers_mark.
Qed.

Lemma make_message_content_newlines_witness :
  let m := mkMessage 1 (GroupChannel (Some "friends") 11) (mkUser "alice" "0001" 7)
                     (mkDatetime 2020 2 29 23 59 59) None
                     ("one" ++ NL ++ "two" ++ NL ++ "three") [] in
  (0 <= message_id m < 2 ^ 64)%Z
  /\ split_lines (str_replace NL (NL ++ "(newline) ") (clean_content m))
     = ["one"; "(newline) two"; "(newline) three"].
Proof.
  intros m.
  assert (H : (0 <= message_id m < 2 ^ 64)%Z) by (cbn; lia).
  split; [exact H|].
  exact (proj1 (proj2 (proj2 (proj2
    (make_message_content_newlines (fun t => t) (mkConfig "logs" false []) m H))))).
Defined.

(** ** Attachments *)

Lemma startswith_app (p s : string) : startswith p (p ++ s) = true.
Proof. induction p as [|x p IH]; simpl; [reflexivity | now rewrite Ascii.eqb_refl]. Qed.

Lemma startswith_inv (p l : string) :
  startswith p l = true -> exists r, l = p ++ r.
Proof.
  revert l. induction p as [|x p IH]; intros l H.
  - now exists l.
  - destruct l as [|y l]; [discriminate|]. simpl in H.
    apply andb_true_iff in H as [Hx Hp]. apply Ascii.eqb_eq in Hx. subst y.
    destruct (IH _ Hp) as [r ->]. now exists r.
Qed.

Lemma marker_line_not_attach (l : string) :
  startswith "(newline) " l = true -> is_attach_line l = false.
Proof. intros H. apply startswith_inv in H as [r ->]. reflexivity. Qed.

(** Every line of the marked content after the first carries the marker,
    also when a piece without newline follows the content. *)
Lemma mark_continuation_lines (s t : string) :
  str_forallb not_LF t = true ->
  Forall (fun l => startswith "(newline) " l = true)
         (tl (split_lines (mark s ++ t))).
Proof.
  intros Ht. induction s as [|x s IH].
  - rewrite mark_nil. cbn [append]. rewrite split_lines_single by exact Ht.
    constructor.
  - destruct (is_LF x) eqn:E.
    + apply Ascii.eqb_eq in E. subst x. rewrite mark_LF.
      change (String LF ("(newline) " ++ mark s) ++ t)
        with (String LF ("(newline) " ++ (mark s ++ t))).
      rewrite split_lines_LF. cbn [tl].
      rewrite split_lines_prefix by reflexivity.
      constructor; [apply startswith_app | exact IH].
    + rewrite mark_other by exact E. cbn [append].
      rewrite split_lines_cons by exact E. exact IH.
Qed.

Lemma filter_none {A : Type} (p : A -> bool) (l : list A) :
  Forall (fun x => p x = false) l -> filter p l = [].
Proof. induction 1 as [|x l Hx _ IH]; simpl; [reflexivity | now rewrite Hx]. Qed.

Lemma token_no_LF (m : Message) :
  str_forallb not_LF
    (match edited_at m with Some _ => "[E:" | None => "[" end
     ++ b64encode (le_bytes 8 (message_id m)) ++ "]") = true.
Proof.
  rewrite !str_forallb_app. cbn [le_bytes b64encode str_forallb].
  rewrite !b64_char_not_LF. destruct (edited_at m); reflexivity.
Qed.

Lemma token_not_attach (m : Message) (rest : string) :
  is_attach_line
    ((match edited_at m with Some _ => "[E:" | None => "[" end
      ++ b64encode (le_bytes 8 (message_id m)) ++ "]") ++ rest) = false.
Proof. destruct (edited_at m); reflexivity. Qed.

(** C6 (evaluation of the code). For a message with a 64-bit identifier
    and at least one attachment, [make_message] returns no line at all:
    the piece for an attachment is formatted with [{0[url]}], which
    subscripts the attachment, and the library's attachment objects
    cannot be subscripted, so [TypeError] is raised at the first
    attachment and no [(attach) <url>] line is ever produced, whatever
    the number of attachments.  For a message without attachments the
    line is returned, and when the author's name and discriminator hold
    no newline none of its physical lines has the form [(attach) ...]. *)
Theorem make_message_attachment_lines
    (tz : datetime -> datetime) (cfg : Config) (m : Message) :
  (0 <= message_id m < 2 ^ 64)%Z ->
  match attachments m with
  | [] =>
      exists out,
        make_message tz cfg m = Ok out
        /\ if str_forallb not_LF (user_name (message_author m))
              && str_forallb not_LF (user_discriminator (message_author m))
           then filter is_attach_line (split_lines out) = []
           else True
  | _ :: _ =>
      make_message tz cfg m
      = Raise (TypeError "'Attachment' object is not subscriptable")
  end.
Proof.
  intros Hid.
  destruct (attachments m) as [|a atts] eqn:E.
  2:{ apply make_message_attachment_error; [exact Hid|]. rewrite E. discriminate. }
  set (token := (match edited_at m with Some _ => "[E:" | None => "[" end
                 ++ b64encode (le_bytes 8 (message_id m)) ++ "]")).
  set (head := token ++ " " ++ message_timestamp tz cfg m ++ " " ++
               message_author_tag m ++ " ").
  set (body := mark (clean_content m) ++ " ").
  assert (Hout : make_message tz cfg m = Ok (head ++ body)).
  { rewrite (make_message_ok tz cfg m Hid E).
    subst head body. fold token. unfold message_content.
    generalize token, (message_timestamp tz cfg m), (message_author_tag m),
      (mark (clean_content m)).
    intros. now rewrite !str_app_assoc. }
  exists (head ++ body). split; [exact Hout|].
  destruct (str_forallb not_LF (user_name (message_author m))) eqn:Hname;
    [|exact I].
  destruct (str_forallb not_LF (user_discriminator (message_author m)))
    eqn:Hdisc; [|exact I].
  cbn [andb].
  assert (Hhead : str_forallb not_LF head = true).
  { subst head. unfold message_author_tag, message_timestamp.
    rewrite !str_forallb_app. subst token. rewrite token_no_LF.
    rewrite strftime_HMS_no_LF, Hname, Hdisc. reflexivity. }
  rewrite split_lines_prefix by exact Hhead. cbn [filter].
  assert (Hprimary : is_attach_line (head ++ hd "" (split_lines body)) = false).
  { subst head. rewrite !str_app_assoc. apply token_not_attach. }
  rewrite Hprimary. apply filter_none.
  subst body. eapply Forall_impl; [|apply mark_continuation_lines; reflexivity].
  intros l. apply marker_line_not_attach.
Qed.

Lemma make_message_attachment_lines_witness :
  let m := mkMessage 1 (GroupChannel (Some "friends") 11) (mkUser "alice" "0001" 7)
             (mkDatetime 2020 2 29 23 59 59) None ("one" ++ NL ++ "two")
             [mkAttachment "https://cdn/a.png"; mkAttachment "https://cdn/b.png"] in
  (0 <= message_id m < 2 ^ 64)%Z
  /\ make_message (fun t => t) (mkConfig "logs" false []) m
     = Raise (TypeError "'Attachment' object is not subscriptable").
Proof.
  intros m.
  assert (H1 : (0 <= message_id m < 2 ^ 64)%Z) by (cbn; lia).
  split; [exact H1|].
  exact (make_message_attachment_lines (fun t => t) (mkConfig "logs" false []) m H1).
Defined.

(** ** Audit paths and audit records *)

(** With [datetime] imported, [make_audit_filename] puts guild-added and
    guild-removed events in the root AUDIT bucket and every other event in
    the AUDIT bucket of the guild. *)
Lemma make_audit_filename_imported
    (ns : Namespace) (cfg : Config) (now : datetime) (event : string) (g : Guild) :
  ns_datetime ns = true ->
  make_audit_filename ns cfg now event g =
  Ok (if String.eqb event "on_guild_add" || String.eqb event "on_guild_remove"
      then log_dir cfg ++ "/AUDIT/" ++ strftime_F now ++ ".log"
      else log_dir cfg ++ "/" ++ clean_filename (guild_name g) ++ "-" ++
           str_of_int (guild_id g) ++ "/AUDIT/" ++ strftime_F now ++ ".log").
Proof.
  intros H. unfold make_audit_filename, utcnow. rewrite H. cbn [rbind].
  now destruct (String.eqb event "on_guild_add" || String.eqb event "on_guild_remove").
Qed.

(** C8 (evaluation of the code). [run.py] imports only [timezone] from
    [datetime], so the first statement of [make_audit_filename], which
    reads [datetime.datetime.utcnow()], raises [NameError] for every event
    and every guild: no path is returned, neither the root AUDIT bucket
    for guild-added and guild-removed events nor a guild's AUDIT bucket
    for the others.  With the module imported the paths are the ones
    stated. *)
Theorem make_audit_filename_raises
    (cfg : Config) (now : datetime) (event : string) (g : Guild) :
  make_audit_filename run_py cfg now event g = Raise (NameError "datetime")
  /\ make_audit_filename (repaired cfg) cfg now "on_guild_add" g
     = Ok (log_dir cfg ++ "/AUDIT/" ++ strftime_F now ++ ".log")
  /\ make_audit_filename (repaired cfg) cfg now "on_guild_remove" g
     = Ok (log_dir cfg ++ "/AUDIT/" ++ strftime_F now ++ ".log")
  /\ make_audit_filename (repaired cfg) cfg now "on_member_ban" g
     = Ok (log_dir cfg ++ "/" ++ clean_filename (guild_name g) ++ "-" ++
           str_of_int (guild_id g) ++ "/AUDIT/" ++ strftime_F now ++ ".log").
Proof. repeat split. Qed.

Lemma make_audit_imported
    (tz : datetime -> datetime) (ns : Namespace) (cfg : Config) (now : datetime)
    (event : string) (g : Guild) :
  ns_datetime ns = true ->
  make_audit tz ns cfg now event g =
  Ok (option_map
        (fun label =>
           strftime_HMS (if use_localtime cfg then tz now else now) ++ " " ++
           label ++ " " ++ "<Guild:" ++ guild_name g ++ ">(ID:" ++
           str_of_int (guild_id g) ++ ")")
        (guild_event_label event)).
Proof.
  intros H. unfold make_audit, guild_event_label, utcnow. rewrite H. cbn [rbind].
  destruct (String.eqb event "on_guild_unavailable"); [reflexivity|].
  destruct (String.eqb event "on_guild_available"); [reflexivity|].
  destruct (String.eqb event "on_guild_remove"); [reflexivity|].
  destruct (String.eqb event "on_guild_add"); reflexivity.
Qed.

Lemma make_audit_ban_imported
    (tz : datetime -> datetime) (ns : Namespace) (cfg : Config) (now : datetime)
    (event : string) (g : Guild) (u : User) :
  ns_datetime ns = true ->
  make_audit_ban tz ns cfg now event g u =
  Ok (option_map
        (fun label =>
           strftime_HMS (if use_localtime cfg then tz now else now) ++ " " ++
           label ++ " " ++ "<User:" ++ user_name u ++ "#" ++
           user_discriminator u ++ ">(ID:" ++ str_of_int (user_id u) ++ ")")
        (ban_event_label event)).
Proof.
  intros H. unfold make_audit_ban, ban_event_label, utcnow. rewrite H. cbn [rbind].
  destruct (String.eqb event "on_member_ban"); [reflexivity|].
  destruct (String.eqb event "on_member_unban"); reflexivity.
Qed.

(** C9 (evaluation of the code). [make_filename] returns no path, and
    raises nothing, for a channel of an unrecognised class, and returns a
    path for a guild text channel and for a group channel with a name.
    The other recognised kinds get no populated result: a direct-message
    channel has no attribute [user], so [AttributeError] is raised, and a
    group without a name gives [None] to [re.sub], which raises
    [TypeError].  The audit formatters do not return an empty result
    either: [make_audit] and [make_audit_ban] begin by reading
    [datetime.datetime.utcnow()], and [datetime] is not imported, so for
    every event tag, recognised or not, they raise [NameError].  With the
    module imported they return a line for the recognised tags and
    nothing for the others. *)
Theorem unrecognised_kinds
    (tz : datetime -> datetime) (cfg : Config) (now : datetime)
    (m : Message) (event : string) (g : Guild) (u : User) :
  match message_channel m with
  | OtherChannel _ => make_filename cfg m = Ok None
  | TextChannel _ _ _ => exists path, make_filename cfg m = Ok (Some path)
  | GroupChannel (Some _) _ => exists path, make_filename cfg m = Ok (Some path)
  | GroupChannel None _ => exists msg, make_filename cfg m = Raise (TypeError msg)
  | DMChannel _ _ => exists msg, make_filename cfg m = Raise (AttributeError msg)
  end
  /\ make_audit tz run_py cfg now event g = Raise (NameError "datetime")
  /\ make_audit_ban tz run_py cfg now event g u = Raise (NameError "datetime")
  /\ match guild_event_label event with
     | Some _ => exists line, make_audit tz (repaired cfg) cfg now event g = Ok (Some line)
     | None => make_audit tz (repaired cfg) cfg now event g = Ok None
     end
  /\ match ban_event_label event with
     | Some _ => exists line, make_audit_ban tz (repaired cfg) cfg now event g u = Ok (Some line)
     | None => make_audit_ban tz (repaired cfg) cfg now event g u = Ok None
     end.
Proof.
  split; [|split; [|split; [|split]]].
  - unfold make_filename.
    destruct (message_channel m) as [name id g0 | r id | [name|] id | og];
      cbn [rbind DMChannel_user re_string]; eauto.
  - reflexivity.
  - reflexivity.
  - rewrite make_audit_imported by reflexivity.
    destruct (guild_event_label event); cbn [option_map]; eauto.
  - rewrite make_audit_ban_imported by reflexivity.
    destruct (ban_event_label event); cbn [option_map]; eauto.
Qed.

Example make_audit_examples :
  let cfg := mkConfig "logs" false [] in
  let now := mkDatetime 2020 2 29 23 59 59 in
  let g := mkGuild "My Guild" 42 in
  make_audit (fun t => t) run_py cfg now "on_typing" g = Raise (NameError "datetime")
  /\ make_audit (fun t => t) run_py cfg now "on_guild_add" g = Raise (NameError "datetime")
  /\ make_audit (fun t => t) (repaired cfg) cfg now "on_typing" g = Ok None
  /\ make_audit (fun t => t) (repaired cfg) cfg now "on_guild_add" g
     = Ok (Some "[23:59:59] [GUILD ADDED] <Guild:My Guild>(ID:42)")
  /\ make_audit_ban (fun t => t) (repaired cfg) cfg now "on_member_ban" g
       (mkUser "mallory" "0666" 13)
     = Ok (Some "[23:59:59] [BAN] <User:mallory#0666>(ID:13)").
Proof. repeat split. Qed.

(** ** Ignore set *)

(** A message of an ignored guild is dropped by its handlers: they
    return at once and leave the world as it was. *)
Lemma on_message_ignored
    (tz : datetime -> datetime) (cfg : Config)
    (m : Message) (g : Guild) (w : World) :
  message_guild m = Some g ->
  int_in (guild_id g) (ignore_servers cfg) = true ->
  on_message tz cfg m w = (w, Ok tt)
  /\ forall before, on_message_edit tz cfg before m w = (w, Ok tt).
Proof.
  intros Hg Hin. unfold on_message, on_message_edit. now rewrite Hg, Hin.
Qed.

(** Every handler of an audit event starts with a test against
    [IGNORE_GUILDS]; no global of that name is defined, so the test
    raises [NameError] for whatever guild it is given. *)
Lemma audit_handler_raises
    (tz : datetime -> datetime) (cfg : Config) (now now' : datetime)
    (ev : Event) (w : World) :
  match ev with
  | EvMessage _ | EvMessageEdit _ _ => True
  | _ => handler tz run_py cfg now now' ev w = (w, Raise (NameError "IGNORE_GUILDS"))
  end.
Proof. destruct ev; reflexivity || exact I. Qed.

(** Where [IGNORE_GUILDS] is the configured ignore list, every event of
    an ignored guild is dropped without effect. *)
Lemma dispatch_ignored_repaired
    (tz : datetime -> datetime) (cfg : Config) (now now' : datetime)
    (ev : Event) (g : Guild) (w : World) :
  event_guild ev = Some g ->
  int_in (guild_id g) (ignore_servers cfg) = true ->
  handler tz (repaired cfg) cfg now now' ev w = (w, Ok tt)
  /\ dispatch tz (repaired cfg) cfg now now' ev w = w.
Proof.
  intros Hg Hin.
  assert (H : handler tz (repaired cfg) cfg now now' ev w = (w, Ok tt)).
  { destruct ev; cbn [event_guild handler] in *;
      try (now apply (on_message_ignored tz cfg _ g));
      injection Hg as ->;
      unfold on_member_ban, on_member_unban, ban_handler,
        on_guild_available, on_guild_unavailable, on_guild_remove,
        on_guild_add, guild_handler, guild_ignored, bind, ret;
      cbn [ns_IGNORE_GUILDS repaired]; now rewrite Hin. }
  split; [exact H|]. unfold dispatch. now rewrite H.
Qed.

(** C7 (evaluation of the code). For an event of a guild in the ignore
    set no file and no directory is touched, whatever the event kind.
    A message or an edit is dropped as stated: the handler returns and
    the world is unchanged.  A ban, an unban, an availability change, a
    guild add or a guild remove is not dropped by the ignore test: the
    test reads the undefined global [IGNORE_GUILDS] and raises
    [NameError], which the gateway client reports on the terminal. *)
Theorem dispatch_ignored_guild
    (tz : datetime -> datetime) (cfg : Config) (now now' : datetime)
    (ev : Event) (g : Guild) (w : World) :
  event_guild ev = Some g ->
  int_in (guild_id g) (ignore_servers cfg) = true ->
  files (dispatch tz run_py cfg now now' ev w) = files w
  /\ dirs (dispatch tz run_py cfg now now' ev w) = dirs w
  /\ match ev with
     | EvMessage _ | EvMessageEdit _ _ =>
         handler tz run_py cfg now now' ev w = (w, Ok tt)
         /\ dispatch tz run_py cfg now now' ev w = w
     | _ =>
         handler tz run_py cfg now now' ev w
         = (w, Raise (NameError "IGNORE_GUILDS"))
         /\ console (dispatch tz run_py cfg now now' ev w)
            = (console w
               ++ [Traceback (handler_name ev) (NameError "IGNORE_GUILDS")])%list
     end.
Proof.
  intros Hg Hin.
  destruct ev; cbn [event_guild] in Hg;
    try (repeat split; reflexivity).
  - destruct (on_message_ignored tz cfg message g w Hg Hin) as [H _].
    unfold dispatch. cbn [handler]. rewrite H. repeat split.
  - destruct (on_message_ignored tz cfg after g w Hg Hin) as [_ H].
    unfold dispatch. cbn [handler]. rewrite (H before). repeat split.
Qed.

Lemma dispatch_ignored_guild_witness :
  let g := mkGuild "My Guild" 42 in
  let cfg := mkConfig "logs" false [42%Z] in
  let now := mkDatetime 2020 2 29 23 59 59 in
  let w := empty_world in
  let ev := EvMemberBan g (mkUser "mallory" "0666" 13) in
  (event_guild ev = Some g /\ int_in (guild_id g) (ignore_servers cfg) = true)
  /\ console (dispatch (fun t => t) run_py cfg now now ev w)
     = [Traceback "on_member_ban" (NameError "IGNORE_GUILDS")].
Proof.
  intros g cfg now w ev. split; [split; reflexivity|].
  exact (proj2 (proj2 (proj2
    (dispatch_ignored_guild (fun t => t) cfg now now ev g w eq_refl eq_refl)))).
Defined.

Example dispatch_examples :
  let g := mkGuild "My Guild" 42 in
  let u := mkUser "alice" "0001" 7 in
  let t := mkDatetime 2020 2 29 23 59 59 in
  let m := mkMessage 1 (TextChannel "general" 5 g) u t None "hi" [] in
  let w := empty_world in
  dispatch (fun t => t) run_py (mkConfig "logs" false [42%Z]) t t (EvMessage m) w = w
  /\ dispatch (fun t => t) run_py (mkConfig "logs" false []) t t (EvMessage m) w
     = mkWorld [("logs/My Guild-42/#general-5/2020-02-29.log",
                 "[AQAAAAAAAAA=] [23:59:59] <alice#0001> hi " ++ NL)]
               ["logs/My Guild-42/#general-5"]
               [Printed "[AQAAAAAAAAA=] [23:59:59] <alice#0001> hi "]
               (os_refuses w)
  /\ dispatch (fun t => t) run_py (mkConfig "logs" false []) t t
       (EvMessage (mkMessage 1 (DMChannel u 11) u t None "hi" [])) w
     = mkWorld [] []
         [Traceback "on_message"
            (AttributeError "'DMChannel' object has no attribute 'user'")]
         (os_refuses w)
  /\ dispatch (fun t => t) run_py (mkConfig "logs" false []) t t (EvGuildAdd g) w
     = mkWorld [] [] [Traceback "on_guild_add" (NameError "IGNORE_GUILDS")]
               (os_refuses w)
  /\ dispatch (fun t => t) (repaired (mkConfig "logs" false [])) (mkConfig "logs" false [])
       t t (EvGuildAdd g) w
     = mkWorld [("logs/AUDIT/2020-02-29.log",
                 "[23:59:59] [GUILD ADDED] <Guild:My Guild>(ID:42)" ++ NL)]
               ["logs/AUDIT"] [] (os_refuses w).
Proof. repeat split. Qed.

(** ** The display-time flag *)

Lemma file_append_paths (path text text' : string) (fs : list (string * string)) :
  map fst (file_append path text fs) = map fst (file_append path text' fs).
Proof.
  induction fs as [|[p body] fs IH]; [reflexivity|].
  cbn [file_append]. destruct (String.eqb p path); cbn [map fst]; [reflexivity|].
  now rewrite IH.
Qed.

(** Writing either of two lines to the same file leaves the same paths. *)
Lemma write_paths (filename : option string) (line line' : string) (w : World) :
  log_paths (fst (write filename (Some line) w))
  = log_paths (fst (write filename (Some line') w))
  /\ (forall e, snd (write filename (Some line) w) = Raise e
               <-> snd (write filename (Some line') w) = Raise e).
Proof.
  destruct filename as [path|]; [|split; [reflexivity | intros e; reflexivity]].
  unfold write, bind. destruct (makedirs (dirname path) w) as [w1 [[]|e1]];
    [|split; [reflexivity | intros e; reflexivity]].
  destruct (open_append path w1) as [w2 [[]|e2]];
    [|split; [reflexivity | intros e; reflexivity]].
  unfold append_file, log_paths. cbn [fst snd files dirs].
  split; [|intros e; split; discriminate].
  f_equal. apply file_append_paths.
Qed.

Lemma print_paths (line : string) (w : World) :
  log_paths (fst (print line w)) = log_paths w.
Proof. reflexivity. Qed.

(** C2. The path of a message does not depend on [use_localtime]: two
    configurations that differ only in that flag give character for
    character the same result of [make_filename], and a run of
    [on_message] under either leaves the same files and directories in
    place; meanwhile the flag does select the time the record displays
    (the local wall-clock time when set, the stored time otherwise). *)
Theorem make_filename_ignores_use_localtime
    (astimezone_local : datetime -> datetime)
    (root : string) (ignore : list Z) (flag flag' : bool) (m : Message) :
  make_filename (mkConfig root flag ignore) m
  = make_filename (mkConfig root flag' ignore) m
  /\ (forall w,
        log_paths (fst (on_message astimezone_local (mkConfig root flag ignore) m w))
        = log_paths (fst (on_message astimezone_local (mkConfig root flag' ignore) m w)))
  /\ message_timestamp astimezone_local (mkConfig root true ignore) m
     = strftime_HMS (astimezone_local (effective_timestamp m))
  /\ message_timestamp astimezone_local (mkConfig root false ignore) m
     = strftime_HMS (effective_timestamp m).
Proof.
  split; [reflexivity|]. split; [|split; reflexivity].
  intros w. unfold on_message. cbn [ignore_servers].
  destruct (match message_guild m with
            | Some g => int_in (guild_id g) ignore
            | None => false
            end); [reflexivity|].
  change (make_filename (mkConfig root flag' ignore) m)
    with (make_filename (mkConfig root flag ignore) m).
  unfold bind at 1 3, lift.
  destruct (make_filename (mkConfig root flag ignore) m) as [filename|e0];
    [|reflexivity].
  unfold make_message, bind, lift.
  destruct (message_id_token m) as [token|e]; cbn [rbind]; [|reflexivity].
  destruct (message_attachments m) as [atts|e]; cbn [rbind]; [|reflexivity].
  match goal with
  | |- context [write filename (Some ?l) w] =>
      match goal with
      | |- log_paths _ = log_paths (fst match write filename (Some ?l') w with _ => _ end) =>
          destruct (write_paths filename l l' w) as [Hp He];
          destruct (write filename (Some l) w) as [w1 [[]|e1]] eqn:E1;
          destruct (write filename (Some l') w) as [w2 [[]|e2]] eqn:E2;
          cbn [fst snd] in *
      end
  end.
  - now rewrite !print_paths.
  - pose proof (proj2 (He e2) eq_refl) as H. discriminate H.
  - pose proof (proj1 (He e1) eq_refl) as H. discriminate H.
  - exact Hp.
Qed.

(** * Further properties of the code *)

(** ** Log Writer *)























Example write_failures_example :
  let w := empty_world in
  write (Some "orphan.log") (Some "line") w = (w, Raise (FileNotFoundError ""))
  /\ write (Some "logs/") (Some "line") w
     = (mkWorld [] ["logs"] [] (os_refuses w), Raise (IsADirectoryError "logs/"))
  /\ write (Some "logs/DM") (Some "line")
       (mkWorld [("logs/DM/friends-11/2020-02-29.log", "")] [] [] (os_refuses w))
     = (mkWorld [("logs/DM/friends-11/2020-02-29.log", "")] [] [] (os_refuses w),
        Raise (IsADirectoryError "logs/DM"))
  /\ fst (write (Some "logs/AUDIT/2020-02-29.log") None w)
     = mkWorld [("logs/AUDIT/2020-02-29.log", "")] ["logs/AUDIT"] [] (os_refuses w)
  /\ write (Some "logs/a.log") (Some "line")
       (mkWorld [] [] [] (fun p => if String.eqb p "logs/a.log"
                                   then Some (OSError "Permission denied")
                                   else None))
     = (mkWorld [] ["logs"] [] (fun p => if String.eqb p "logs/a.log"
                                         then Some (OSError "Permission denied")
                                         else None),
        Raise (OSError "Permission denied")).
Proof. repeat split. Qed.

(** ** Decimal numerals *)

Lemma digits_nz_uint (d : Decimal.uint) :
  str_forallb is_digit (NilZero.string_of_uint d) = true.
Proof.
  unfold NilZero.string_of_uint.
  destruct d; try reflexivity; apply (digits_of_uint (_ d)).
Qed.

Lemma nz_uint_nonempty (d : Decimal.uint) : NilZero.string_of_uint d <> "".
Proof. destruct d; discriminate. Qed.

(** The numeral of an integer is an optional minus sign and then digits,
    at least one. *)
Lemma str_of_int_shape (z : Z) :
  exists sign ds,
    str_of_int z = sign ++ ds
    /\ (sign = "" \/ sign = "-")
    /\ ((0 <= z)%Z -> sign = "")
    /\ ds <> "" /\ str_forallb is_digit ds = true.
Proof.
  unfold str_of_int. destruct z as [|p|p]; cbn [Z.to_int NilZero.string_of_int].
  - exists "", "0". repeat split; auto. discriminate.
  - exists "", (NilZero.string_of_uint (Pos.to_uint p)).
    repeat split; auto using nz_uint_nonempty, digits_nz_uint.
  - exists "-", (NilZero.string_of_uint (Pos.to_uint p)).
    repeat split; auto using nz_uint_nonempty, digits_nz_uint. lia.
Qed.

Lemma str_of_int_inj (z z' : Z) : str_of_int z = str_of_int z' -> z = z'.
Proof.
  unfold str_of_int. intros E.
  assert (N : forall x, NilZero.int_of_string (NilZero.string_of_int (Z.to_int x))
                        = Some (Z.to_int x)).
  { intros x. apply NilZero.isi; destruct x; cbn [Z.to_int]; try discriminate;
      intros [= H]; now apply DecimalPos.Unsigned.to_uint_nonnil in H. }
  pose proof (N z) as Hz. rewrite E, N in Hz. injection Hz as Hz.
  rewrite <- (DecimalZ.of_to z), <- (DecimalZ.of_to z'). now rewrite Hz.
Qed.

Lemma str_of_int_no_slash (z : Z) : str_forallb not_slash (str_of_int z) = true.
Proof.
  destruct (str_of_int_shape z) as (sign & ds & -> & Hs & _ & _ & Hd).
  rewrite str_forallb_app, (str_forallb_impl is_digit _ _ digit_not_slash Hd).
  destruct Hs as [-> | ->]; reflexivity.
Qed.

Lemma ends_without_slash_digits (front ds : string) :
  ds <> "" -> str_forallb is_digit ds = true ->
  ends_without_slash (front ++ ds).
Proof.
  intros Hne Hd. revert front. induction ds as [|c ds IH]; intros front; [easy|].
  simpl in Hd. apply andb_true_iff in Hd as [Hc Hds].
  destruct ds as [|c' ds].
  - exists front, c. split; [reflexivity|].
    apply digit_not_slash in Hc. now apply negb_true_iff in Hc.
  - destruct (IH ltac:(discriminate) Hds (front ++ String c "")) as (f & x & E & Hx).
    exists f, x. split; [|exact Hx]. rewrite <- E. now rewrite str_app_assoc.
Qed.

Lemma ends_without_slash_int (front : string) (z : Z) :
  ends_without_slash (front ++ str_of_int z).
Proof.
  destruct (str_of_int_shape z) as (sign & ds & -> & _ & _ & Hne & Hd).
  rewrite <- str_app_assoc. now apply ends_without_slash_digits.
Qed.

(** ** Splitting a path *)

Lemma path_head_none (f : string) : has_slash f = false -> path_head f = "".
Proof. intros Hf. destruct f; [reflexivity|]. cbn [path_head]. now rewrite Hf. Qed.

Lemma path_head_join (d f : string) :
  has_slash f = false -> path_head (d ++ String "/" f) = d ++ "/".
Proof.
  intros Hf. induction d as [|c d IH].
  - cbn [append path_head has_slash].
    replace (is_slash "/") with true by reflexivity.
    cbn [orb]. now rewrite (path_head_none f Hf).
  - cbn [append path_head has_slash]. rewrite has_slash_app. cbn [has_slash].
    replace (is_slash "/") with true by reflexivity.
    rewrite !orb_true_r. now rewrite IH.
Qed.

Lemma rstrip_slash_snoc (s : string) : rstrip_slash (s ++ "/") = rstrip_slash s.
Proof.
  induction s as [|c s IH]; [reflexivity|].
  cbn [append rstrip_slash]. now rewrite IH.
Qed.

Lemma rstrip_slash_keeps (s : string) :
  ends_without_slash s -> rstrip_slash s = s /\ s <> "".
Proof.
  intros (front & c & -> & Hc). induction front as [|x front [IH Hne]].
  - cbn. rewrite Hc. split; [reflexivity | discriminate].
  - cbn [append rstrip_slash]. rewrite IH. split; [|discriminate].
    destruct (front ++ String c "") eqn:E; [now elim Hne | reflexivity].
Qed.

Lemma not_all_slashes (s : string) :
  ends_without_slash s -> str_forallb is_slash (s ++ "/") = false.
Proof.
  intros (front & c & -> & Hc).
  rewrite !str_forallb_app. cbn [str_forallb]. rewrite Hc.
  now rewrite andb_false_r.
Qed.

(** [os.path.dirname] and [os.path.basename] take apart what was joined
    with a slash, when the directory does not end with a slash and the
    file name holds none. *)
Lemma dirname_join (d f : string) :
  ends_without_slash d -> has_slash f = false ->
  dirname (d ++ "/" ++ f) = d /\ basename (d ++ "/" ++ f) = f.
Proof.
  intros Hd Hf. split; [|now apply basename_last].
  unfold dirname. change (d ++ "/" ++ f) with (d ++ String "/" f).
  rewrite path_head_join by exact Hf.
  rewrite (not_all_slashes d Hd).
  destruct (rstrip_slash_keeps d Hd) as [Hr Hne].
  assert (E : String.eqb (d ++ "/") "" = false).
  { apply String.eqb_neq. destruct d; [now elim Hne | discriminate]. }
  rewrite E. cbn [negb andb]. now rewrite rstrip_slash_snoc.
Qed.

Lemma ends_without_slash_app (front s : string) :
  ends_without_slash s -> ends_without_slash (front ++ s).
Proof.
  intros (f & c & -> & Hc). exists (front ++ f), c.
  split; [now rewrite str_app_assoc | exact Hc].
Qed.

Lemma channel_dir_ends (cfg : Config) (ch : Channel) (d : string) :
  channel_dir cfg ch = Some d -> ends_without_slash d.
Proof.
  intros E.
  assert (H : forall z, ends_without_slash (str_of_int z))
    by (intros z; apply (ends_without_slash_int "" z)).
  destruct ch as [name id g | u id | [name|] id | og]; cbn [channel_dir] in E;
    try discriminate;
    apply (f_equal (fun o => match o with Some x => x | None => d end)) in E;
    cbv beta iota in E; subst d;
    repeat apply ends_without_slash_app; apply H.
Qed.

Lemma make_filename_channel_dir (cfg : Config) (m : Message) :
  match channel_dir cfg (message_channel m) with
  | Some d =>
      make_filename cfg m
      = Ok (Some (d ++ "/" ++ strftime_F (effective_timestamp m) ++ ".log"))
  | None => forall path, make_filename cfg m <> Ok (Some path)
  end.
Proof.
  unfold make_filename, effective_timestamp.
  destruct (message_channel m) as [name id g | u id | [name|] id | og];
    cbn [channel_dir rbind DMChannel_user re_string]; try (intros path; discriminate);
    generalize (strftime_F match edited_at m with Some t => t | None => created_at m end);
    intros date; now rewrite !str_app_assoc.
Qed.


Lemma date_file_no_slash (t : datetime) : has_slash (strftime_F t ++ ".log") = false.
Proof. now rewrite has_slash_app, has_slash_forallb, strftime_F_no_slash. Qed.

(** The path [make_filename] returns splits, with [os.path.dirname]
    and [os.path.basename], into the directory of the channel, which
    depends on the channel and the configuration only, and the file name
    made of the date.  A path is returned exactly when the channel has a
    directory, that is, for a guild text channel and for a group channel
    with a name.  So the directory [write] asks for is the channel's, for
    every message of the channel. *)
Theorem make_filename_splits (cfg : Config) (m : Message) :
  match make_filename cfg m, channel_dir cfg (message_channel m) with
  | Ok (Some path), Some dir =>
      dirname path = dir
      /\ basename path = strftime_F (effective_timestamp m) ++ ".log"
      /\ path = dir ++ "/" ++ basename path
  | Ok (Some _), None => False
  | _, Some _ => False
  | _, None => True
  end.
Proof.
  pose proof (make_filename_channel_dir cfg m) as H.
  destruct (channel_dir cfg (message_channel m)) as [dir|] eqn:E.
  - rewrite H.
    destruct (dirname_join dir _ (channel_dir_ends _ _ _ E)
                (date_file_no_slash (effective_timestamp m))) as [Hd Hb].
    rewrite Hd, Hb. auto.
  - destruct (make_filename cfg m) as [[path|]|e]; try exact I.
    now elim (H path).
Qed.

(** ** Names cannot add directory levels *)

Lemma str_count_none (p : ascii -> bool) (s : string) :
  str_forallb (fun c => negb (p c)) s = true -> str_count p s = 0.
Proof.
  induction s as [|c s IH]; [reflexivity|]. cbn [str_forallb str_count].
  intros H. apply andb_true_iff in H as [Hc Hs].
  apply negb_true_iff in Hc. now rewrite Hc, (IH Hs).
Qed.

Lemma kept_not_slash (c : ascii) : negb (spec_removed c) = true -> not_slash c = true.
Proof. destruct c as [[] [] [] [] [] [] [] []]; vm_compute; congruence. Qed.

Lemma clean_filename_no_slash (s : string) :
  str_count is_slash (clean_filename s) = 0.
Proof.
  apply str_count_none.
  apply (str_forallb_impl (fun c => negb (spec_removed c)) _ _ kept_not_slash).
  rewrite clean_filename_filter. apply str_filter_forallb.
Qed.

Lemma str_of_int_slashes (z : Z) : str_count is_slash (str_of_int z) = 0.
Proof. apply str_count_none, str_of_int_no_slash. Qed.

Lemma strftime_F_slashes (t : datetime) : str_count is_slash (strftime_F t) = 0.
Proof. apply str_count_none, strftime_F_no_slash. Qed.

(** Whatever the guild, channel and user names are, the log file of a
    message lies exactly two directories below [log_dir]: the path has
    three slashes more than [log_dir] has.  A name cannot add a path
    component, because [clean_filename] leaves no slash in it. *)
Theorem make_filename_depth (cfg : Config) (m : Message) :
  match make_filename cfg m with
  | Ok (Some path) =>
      str_count is_slash path = str_count is_slash (log_dir cfg) + 3
  | _ => True
  end.
Proof.
  unfold make_filename.
  generalize (match edited_at m with Some t => t | None => created_at m end).
  intros t.
  destruct (message_channel m) as [name id g | u id | [name|] id | og];
    cbn [rbind DMChannel_user re_string]; try exact I;
    rewrite !str_count_app, !clean_filename_no_slash, !str_of_int_slashes,
      strftime_F_slashes; cbn; lia.
Qed.

Example make_filename_depth_example :
  make_filename (mkConfig "var/logs" false [])
    (mkMessage 1 (TextChannel "a/b" 5 (mkGuild "../../etc" 42))
       (mkUser "alice" "0001" 7) (mkDatetime 2020 2 29 23 59 59) None "hi" [])
  = Ok (Some "var/logs/....etc-42/#ab-5/2020-02-29.log").
Proof. reflexivity. Qed.

(** ** Channels do not share log files *)

Lemma str_app_inv_head (a x y : string) : a ++ x = a ++ y -> x = y.
Proof. induction a as [|c a IH]; cbn [append]; [auto|]. intros [= H]. auto. Qed.

Lemma split_at_first_slash (a a' x x' : string) :
  str_forallb not_slash a = true -> str_forallb not_slash a' = true ->
  a ++ String "/" x = a' ++ String "/" x' -> a = a' /\ x = x'.
Proof.
  revert a'. induction a as [|c a IH]; intros [|c' a'] Ha Ha' E; cbn [append] in E.
  - injection E as E. auto.
  - injection E as Ec E. subst c'. discriminate Ha'.
  - injection E as Ec E. subst c. discriminate Ha.
  - injection E as Ec E. subst c'.
    cbn [str_forallb] in Ha, Ha'.
    apply andb_true_iff in Ha as [_ Ha]. apply andb_true_iff in Ha' as [_ Ha'].
    destruct (IH a' Ha Ha' E) as [-> ->]. auto.
Qed.

Lemma split_at_last_dash (a a' d d' : string) :
  str_forallb is_digit d = true -> str_forallb is_digit d' = true ->
  a ++ String "-" d = a' ++ String "-" d' -> a = a' /\ d = d'.
Proof.
  intros Hd Hd'.
  assert (N : forall u v w, str_forallb is_digit u = true ->
                            u = v ++ String "-" w -> False).
  { intros u v w Hu ->. rewrite str_forallb_app in Hu. cbn [str_forallb] in Hu.
    replace (is_digit "-") with false in Hu by reflexivity.
    rewrite andb_false_r in Hu. discriminate. }
  revert a'. induction a as [|c a IH]; intros [|c' a'] E; cbn [append] in E.
  - injection E as E. auto.
  - injection E as _ E. elim (N _ _ _ Hd E).
  - injection E as _ E. elim (N _ _ _ Hd' (eq_sym E)).
  - injection E as Ec E. subst c'. destruct (IH a' E) as [-> ->]. auto.
Qed.

Lemma str_of_int_nonneg_digits (z : Z) :
  (0 <= z)%Z -> str_forallb is_digit (str_of_int z) = true.
Proof.
  intros Hz. destruct (str_of_int_shape z) as (sign & ds & -> & _ & Hs & _ & Hd).
  now rewrite (Hs Hz).
Qed.

(** A name and a non-negative identifier can be read back from
    [name-id]: the identifier is what follows the last dash. *)
Lemma name_id_inj (n n' : string) (z z' : Z) :
  (0 <= z)%Z -> (0 <= z')%Z ->
  n ++ "-" ++ str_of_int z = n' ++ "-" ++ str_of_int z' -> n = n' /\ z = z'.
Proof.
  intros Hz Hz' E. cbn [append] in E.
  apply split_at_last_dash in E as [-> E];
    auto using str_of_int_nonneg_digits.
  split; [reflexivity | now apply str_of_int_inj].
Qed.

Lemma clean_filename_not_slash (s : string) :
  str_forallb not_slash (clean_filename s) = true.
Proof.
  apply (str_forallb_impl (fun c => negb (spec_removed c)) _ _ kept_not_slash).
  rewrite clean_filename_filter. apply str_filter_forallb.
Qed.

Lemma name_id_not_slash (n : string) (z : Z) :
  str_forallb not_slash (clean_filename n ++ "-" ++ str_of_int z) = true.
Proof.
  rewrite !str_forallb_app, clean_filename_not_slash, str_of_int_no_slash.
  reflexivity.
Qed.

Lemma name_id_not_DM (n : string) (z : Z) : n ++ "-" ++ str_of_int z <> "DM".
Proof.
  intros E. apply (f_equal (str_count is_dash)) in E.
  rewrite !str_count_app in E. cbn in E. lia.
Qed.

Lemma guild_path_inj (A B C D A' B' C' D' : string) :
  str_forallb not_slash (A ++ "-" ++ B) = true ->
  str_forallb not_slash (A' ++ "-" ++ B') = true ->
  "/" ++ A ++ "-" ++ B ++ "/#" ++ C ++ "-" ++ D
  = "/" ++ A' ++ "-" ++ B' ++ "/#" ++ C' ++ "-" ++ D' ->
  A ++ "-" ++ B = A' ++ "-" ++ B' /\ C ++ "-" ++ D = C' ++ "-" ++ D'.
Proof.
  intros H H' E.
  replace ("/" ++ A ++ "-" ++ B ++ "/#" ++ C ++ "-" ++ D)
    with (String "/" ((A ++ "-" ++ B) ++ String "/" (String "#" (C ++ "-" ++ D))))
    in E by (now rewrite !str_app_assoc).
  replace ("/" ++ A' ++ "-" ++ B' ++ "/#" ++ C' ++ "-" ++ D')
    with (String "/" ((A' ++ "-" ++ B') ++ String "/" (String "#" (C' ++ "-" ++ D'))))
    in E by (now rewrite !str_app_assoc).
  injection E as E.
  apply split_at_first_slash in E as [E1 E2]; [|assumption|assumption].
  injection E2 as E2. auto.
Qed.

Lemma guild_path_not_dm (A B R U : string) :
  str_forallb not_slash (A ++ "-" ++ B) = true ->
  "/" ++ A ++ "-" ++ B ++ "/#" ++ R = "/DM/" ++ U ->
  A ++ "-" ++ B = "DM".
Proof.
  intros H E.
  replace ("/" ++ A ++ "-" ++ B ++ "/#" ++ R)
    with (String "/" ((A ++ "-" ++ B) ++ String "/" (String "#" R)))
    in E by (now rewrite !str_app_assoc).
  change ("/DM/" ++ U) with (String "/" ("DM" ++ String "/" U)) in E.
  injection E as E.
  apply (split_at_first_slash (A ++ "-" ++ B) "DM" (String "#" R) U) in E;
    [tauto | assumption | reflexivity].
Qed.

Lemma channel_dir_bucket (cfg : Config) (ch ch' : Channel) (d : string) :
  ids_nonneg ch -> ids_nonneg ch' ->
  channel_dir cfg ch = Some d -> channel_dir cfg ch' = Some d ->
  channel_bucket ch = channel_bucket ch'.
Proof.
  intros Hn Hn' E E'.
  assert (S : forall a b : string, Some a = Some b -> a = b)
    by (intros a b [=]; assumption).
  destruct ch as [name id g | u id | [name|] id | og];
    destruct ch' as [name' id' g' | u' id' | [name'|] id' | og'];
    cbn [channel_dir ids_nonneg channel_bucket] in *; try discriminate;
    rewrite <- E' in E; clear E' d; apply S, str_app_inv_head in E.
  - apply guild_path_inj in E as [E1 E2]; try apply name_id_not_slash.
    destruct Hn, Hn'.
    apply name_id_inj in E1 as [_ ->]; [|assumption|assumption].
    apply name_id_inj in E2 as [_ ->]; [|assumption|assumption].
    reflexivity.
  - apply guild_path_not_dm in E; [|apply name_id_not_slash].
    now apply name_id_not_DM in E.
  - symmetry in E. apply guild_path_not_dm in E; [|apply name_id_not_slash].
    now apply name_id_not_DM in E.
  - apply (str_app_inv_head "/DM/") in E.
    apply name_id_inj in E as [_ ->]; [reflexivity|assumption|assumption].
Qed.

(** Two messages whose log paths are the same were sent in the same
    place and on the same date: in the same guild and channel for guild
    text channels (also when the names of two channels clean to the same
    string), and never one in a guild and the other in a direct or group
    conversation.  Identifiers are taken non-negative, as the platform's
    are: with a negative one the dash of the sign could be read as the
    dash after the name. *)
Theorem make_filename_separates_channels (cfg : Config) (m m' : Message) (path : string) :
  ids_nonneg (message_channel m) -> ids_nonneg (message_channel m') ->
  make_filename cfg m = Ok (Some path) -> make_filename cfg m' = Ok (Some path) ->
  channel_bucket (message_channel m) = channel_bucket (message_channel m')
  /\ strftime_F (effective_timestamp m) = strftime_F (effective_timestamp m').
Proof.
  intros Hn Hn' E E'.
  pose proof (make_filename_channel_dir cfg m) as F.
  pose proof (make_filename_channel_dir cfg m') as F'.
  destruct (channel_dir cfg (message_channel m)) as [d|] eqn:D;
    [|now elim (F path)].
  destruct (channel_dir cfg (message_channel m')) as [d'|] eqn:D';
    [|now elim (F' path)].
  rewrite F in E. rewrite F' in E'. clear F F'.
  assert (S : forall a b : string, Some a = Some b -> a = b)
    by (intros a b [=]; assumption).
  assert (R : forall a b : option string, Ok a = Ok b -> a = b)
    by (intros a b [=]; assumption).
  apply R, S in E. apply R, S in E'. subst path.
  destruct (dirname_join d _ (channel_dir_ends _ _ _ D)
              (date_file_no_slash (effective_timestamp m))) as [Hd Hb].
  destruct (dirname_join d' _ (channel_dir_ends _ _ _ D')
              (date_file_no_slash (effective_timestamp m'))) as [Hd' Hb'].
  rewrite E' in Hd', Hb'. rewrite Hd in Hd'. rewrite Hb in Hb'. subst d'.
  split.
  - exact (channel_dir_bucket cfg _ _ d Hn Hn' D D').
  - assert (Q : strip_suffix ".log" (strftime_F (effective_timestamp m) ++ ".log")
              = strip_suffix ".log" (strftime_F (effective_timestamp m') ++ ".log"))
      by now rewrite Hb'.
    rewrite !strip_suffix_app in Q. now apply S in Q.
Qed.

Lemma make_filename_separates_channels_witness :
  let g := mkGuild "My Guild" 42 in
  let t := mkDatetime 2020 2 29 23 59 59 in
  let cfg := mkConfig "logs" false [] in
  let m := mkMessage 1 (TextChannel "gen:eral" 5 g) (mkUser "alice" "0001" 7)
             t None "hi" [] in
  let m' := mkMessage 2 (TextChannel "general" 5 g) (mkUser "bob" "0002" 9)
              (mkDatetime 2020 2 28 1 2 3) (Some t) "there" [] in
  (ids_nonneg (message_channel m) /\ ids_nonneg (message_channel m')
   /\ make_filename cfg m = Ok (Some "logs/My Guild-42/#general-5/2020-02-29.log")
   /\ make_filename cfg m' = Ok (Some "logs/My Guild-42/#general-5/2020-02-29.log"))
  /\ channel_bucket (message_channel m) = channel_bucket (message_channel m').
Proof.
  intros g t cfg m m'.
  assert (H1 : ids_nonneg (message_channel m)) by (cbn; lia).
  assert (H2 : ids_nonneg (message_channel m')) by (cbn; lia).
  split; [repeat split; try reflexivity; cbn; lia|].
  exact (proj1 (make_filename_separates_channels cfg m m' _ H1 H2 eq_refl eq_refl)).
Defined.

(** ** What a message handler leaves behind *)








Example on_message_failure_example :
  let g := mkGuild "My Guild" 42 in
  let u := mkUser "alice" "0001" 7 in
  let t := mkDatetime 2020 2 29 23 59 59 in
  let cfg := mkConfig "logs" false [] in
  let w := empty_world in
  on_message (fun t => t) cfg
    (mkMessage (2 ^ 64) (TextChannel "general" 5 g) u t None "hi" []) w
  = (w, Raise (OverflowError "int too big to convert"))
  /\ on_message (fun t => t) cfg
       (mkMessage 1 (OtherChannel (Some g)) u t None "hi" []) w
     = (w, Raise (TypeError "expected str, bytes or os.PathLike object, not NoneType"))
  /\ on_message (fun t => t) cfg
       (mkMessage 1 (DMChannel u 12) u t None "hi" []) w
     = (w, Raise (AttributeError "'DMChannel' object has no attribute 'user'"))
  /\ on_message (fun t => t) cfg
       (mkMessage 1 (GroupChannel None 11) u t None "hi" []) w
     = (w, Raise (TypeError "expected string or bytes-like object"))
  /\ on_message (fun t => t) cfg
       (mkMessage 1 (TextChannel "general" 5 g) u t None "hi"
          [mkAttachment "https://cdn/a.png"]) w
     = (w, Raise (TypeError "'Attachment' object is not subscriptable"))
  /\ on_message (fun t => t) cfg
       (mkMessage 1 (TextChannel "general" 5 g) u t None "hi" [])
       (mkWorld [("logs/My Guild-42/#general-5", "a file")] [] [] (fun _ => None))
     = (mkWorld [("logs/My Guild-42/#general-5", "a file")] [] [] (fun _ => None),
        Raise (FileExistsError "logs/My Guild-42/#general-5")).
Proof. repeat split. Qed.

(** ** Logs only grow *)

















(** ** Audit events *)

(** An audit event (ban, unban, availability change, guild added or
    removed) never reaches the log as long as one of the names the audit
    code reads, [datetime] or [IGNORE_GUILDS], is unbound, and in
    [run.py] both are: whatever the guild, ignored or not, the handler
    stops before [write], so no file and no directory is created or
    changed and nothing is printed by the program. *)
Theorem audit_events_not_logged
    (tz : datetime -> datetime) (ns : Namespace) (cfg : Config)
    (now now' : datetime) (ev : Event) (w : World) :
  ns_datetime ns = false \/ ns_IGNORE_GUILDS ns = None ->
  match ev with
  | EvMessage _ | EvMessageEdit _ _ => True
  | _ =>
      fst (handler tz ns cfg now now' ev w) = w
      /\ files (dispatch tz ns cfg now now' ev w) = files w
      /\ dirs (dispatch tz ns cfg now now' ev w) = dirs w
  end.
Proof.
  intros H.
  assert (G : match ev with
              | EvMessage _ | EvMessageEdit _ _ => True
              | _ => fst (handler tz ns cfg now now' ev w) = w
              end).
  { destruct ev; try exact I; cbn [handler];
      unfold on_member_ban, on_member_unban, ban_handler, on_guild_available,
        on_guild_unavailable, on_guild_remove, on_guild_add, guild_handler,
        guild_ignored, bind, lift, ret, throw, make_audit_filename, utcnow;
      destruct (ns_IGNORE_GUILDS ns) as [ignore|]; try reflexivity;
      destruct (int_in (guild_id guild) ignore); try reflexivity;
      destruct H as [H|H]; try discriminate; rewrite ?H; try reflexivity;
      destruct (ns_utils ns); reflexivity. }
  destruct ev; try exact I; (split; [exact G|]); unfold dispatch;
    destruct (handler tz ns cfg now now' _ w) as [w1 [a|e]];
    cbn [fst] in G; subst w1; split; reflexivity.
Qed.

Lemma audit_events_not_logged_witness :
  let g := mkGuild "My Guild" 42 in
  let t := mkDatetime 2020 2 29 23 59 59 in
  let cfg := mkConfig "logs" false [] in
  let w := empty_world in
  (ns_datetime run_py = false \/ ns_IGNORE_GUILDS run_py = None)
  /\ files (dispatch (fun t => t) run_py cfg t t (EvGuildRemove g) w) = [].
Proof.
  intros g t cfg w.
  assert (H : ns_datetime run_py = false \/ ns_IGNORE_GUILDS run_py = None)
    by (left; reflexivity).
  split; [exact H|].
  exact (proj1 (proj2
    (audit_events_not_logged (fun t => t) run_py cfg t t (EvGuildRemove g) w H))).
Defined.

(** ** The identifier can be read back from its token *)

(** The token at the head of a line identifies the message: for
    identifiers that fit 64 bits, two messages with the same token have
    the same identifier and are both edits or both not, so the base64
    form loses nothing of the identifier.  The token has a fixed width:
    14 characters, or 16 with the [E:] of an edit. *)
Theorem message_id_token_identifies (m m' : Message) :
  (0 <= message_id m < 2 ^ 64)%Z ->
  (0 <= message_id m' < 2 ^ 64)%Z ->
  message_id_token m = message_id_token m' ->
  message_id m = message_id m'
  /\ match edited_at m, edited_at m' with
     | Some _, Some _ | None, None => True
     | _, _ => False
     end
  /\ exists token,
       message_id_token m = Ok token
       /\ String.length token = match edited_at m with Some _ => 16 | None => 14 end.
Proof.
  intros H H' E.
  rewrite (message_id_token_ok m H), (message_id_token_ok m' H') in E.
  assert (S : forall a b : string, Ok a = Ok b -> a = b)
    by (intros a b [=]; assumption).
  apply S in E.
  assert (L : forall n, String.length (b64encode (le_bytes 8 n)) = 12)
    by (intros n; cbn [le_bytes b64encode String.length]; reflexivity).
  split; [|split].
  - destruct (edited_at m), (edited_at m').
    + apply (str_app_inv_head "[E:") in E. eapply token_body_inj; eassumption.
    + apply (f_equal String.length) in E.
      rewrite !str_length_app, !L in E. cbn in E. lia.
    + apply (f_equal String.length) in E.
      rewrite !str_length_app, !L in E. cbn in E. lia.
    + apply (str_app_inv_head "[") in E. eapply token_body_inj; eassumption.
  - destruct (edited_at m), (edited_at m'); try exact I;
      apply (f_equal String.length) in E;
      rewrite !str_length_app, !L in E; cbn in E; lia.
  - eexists. split; [apply (message_id_token_ok m H)|].
    rewrite !str_length_app, L. destruct (edited_at m); reflexivity.
Qed.

Lemma message_id_token_identifies_witness :
  let t := mkDatetime 2020 2 29 23 59 59 in
  let m := mkMessage 175928847299117063 (GroupChannel (Some "friends") 11)
             (mkUser "alice" "0001" 7) t None "hi" [] in
  let m' := mkMessage 175928847299117063 (DMChannel (mkUser "bob" "0002" 9) 12)
              (mkUser "bob" "0002" 9) t None "again" [] in
  ((0 <= message_id m < 2 ^ 64)%Z /\ (0 <= message_id m' < 2 ^ 64)%Z
   /\ message_id_token m = message_id_token m')
  /\ exists token,
       message_id_token m = Ok token
       /\ String.length token = match edited_at m with Some _ => 16 | None => 14 end.
Proof.
  intros t m m'.
  assert (H1 : (0 <= message_id m < 2 ^ 64)%Z) by (cbn; lia).
  assert (H2 : (0 <= message_id m' < 2 ^ 64)%Z) by (cbn; lia).
  assert (H3 : message_id_token m = message_id_token m') by reflexivity.
  split; [exact (conj H1 (conj H2 H3))|].
  exact (proj2 (proj2 (message_id_token_identifies m m' H1 H2 H3))).
Defined.

Example message_id_token_example :
  message_id_token
    (mkMessage 175928847299117063 (GroupChannel (Some "friends") 11)
       (mkUser "alice" "0001" 7) (mkDatetime 2020 2 29 23 59 59) None "hi" [])
  = Ok "[BwACwVoGcQI=]"
  /\ b64encode (le_bytes 8 (2 ^ 64 - 1)) = "//////////8=".
Proof. split; reflexivity. Qed.

(** ** Size of a record *)

Lemma no_LF_count (s : string) : str_forallb not_LF s = true -> str_count is_LF s = 0.
Proof. apply str_count_none. Qed.

(** A record takes as many physical lines as one plus the newlines of
    the content: for a message without attachments, with a 64-bit
    identifier, whose author name and discriminator hold no newline, the
    output of [make_message] has [1 + k] lines, [k] being the number of
    newlines in the clean content.  With an attachment there is no
    output: the call raises [TypeError]. *)
Theorem make_message_line_count
    (tz : datetime -> datetime) (cfg : Config) (m : Message) :
  (0 <= message_id m < 2 ^ 64)%Z ->
  str_forallb not_LF (user_name (message_author m)) = true ->
  str_forallb not_LF (user_discriminator (message_author m)) = true ->
  match attachments m with
  | [] =>
      exists out,
        make_message tz cfg m = Ok out
        /\ List.length (split_lines out) = 1 + str_count is_LF (clean_content m)
  | _ :: _ =>
      make_message tz cfg m
      = Raise (TypeError "'Attachment' object is not subscriptable")
  end.
Proof.
  intros Hid Hname Hdisc.
  destruct (attachments m) as [|a atts] eqn:A.
  2:{ apply make_message_attachment_error; [exact Hid|].
      rewrite A. discriminate. }
  eexists. split; [apply (make_message_ok tz cfg m Hid A)|].
  rewrite split_lines_length.
  pose proof (no_LF_count _ (token_no_LF m)) as Ctok.
  assert (Cts : str_count is_LF (message_timestamp tz cfg m) = 0)
    by (apply no_LF_count, strftime_HMS_no_LF).
  assert (Cau : str_count is_LF (message_author_tag m) = 0).
  { unfold message_author_tag. rewrite !str_count_app.
    now rewrite (no_LF_count _ Hname), (no_LF_count _ Hdisc). }
  assert (Cco : str_count is_LF (message_content m)
                = str_count is_LF (clean_content m)) by apply mark_count.
  revert Ctok Cts Cau Cco.
  generalize (match edited_at m with Some _ => "[E:" | None => "[" end
              ++ b64encode (le_bytes 8 (message_id m)) ++ "]"),
    (message_timestamp tz cfg m), (message_author_tag m), (message_content m).
  intros tok ts au co Ctok Cts Cau Cco.
  rewrite !str_count_app, Ctok, Cts, Cau, Cco. cbn. lia.
Qed.

Lemma make_message_line_count_witness :
  let m := mkMessage 1 (GroupChannel (Some "friends") 11) (mkUser "alice" "0001" 7)
             (mkDatetime 2020 2 29 23 59 59) None ("one" ++ NL ++ "two") [] in
  ((0 <= message_id m < 2 ^ 64)%Z
   /\ str_forallb not_LF (user_name (message_author m)) = true
   /\ str_forallb not_LF (user_discriminator (message_author m)) = true)
  /\ exists out,
       make_message (fun t => t) (mkConfig "logs" false []) m = Ok out
       /\ List.length (split_lines out) = 2.
Proof.
  intros m.
  assert (H1 : (0 <= message_id m < 2 ^ 64)%Z) by (cbn; lia).
  assert (H2 : str_forallb not_LF (user_name (message_author m)) = true)
    by reflexivity.
  assert (H3 : str_forallb not_LF (user_discriminator (message_author m)) = true)
    by reflexivity.
  split; [exact (conj H1 (conj H2 H3))|].
  exact (make_message_line_count (fun t => t) (mkConfig "logs" false []) m
           H1 H2 H3).
Defined.

(** ** Cleaning piece by piece *)

Lemma str_filter_app (keep : ascii -> bool) (a b : string) :
  str_filter keep (a ++ b) = str_filter keep a ++ str_filter keep b.
Proof.
  induction a as [|c a IH]; [reflexivity|]. cbn [append str_filter].
  destruct (keep c); cbn [append]; now rewrite IH.
Qed.

Lemma str_filter_empty (keep : ascii -> bool) (s : string) :
  str_filter keep s = "" <-> str_forallb (fun c => negb (keep c)) s = true.
Proof.
  induction s as [|c s IH]; cbn [str_filter str_forallb]; [tauto|].
  destruct (keep c); cbn [negb andb]; [split; discriminate | exact IH].
Qed.

(** [clean_filename] works character by character: cleaning a
    concatenation gives the concatenation of the cleaned parts, the result
    is never longer than the input, and it is empty exactly when every
    character of the input is one of the removed ones (for the empty
    name in particular), in which case the path component built from it
    is just the dash and the identifier. *)
Theorem clean_filename_pieces (a b : string) :
  clean_filename (a ++ b) = clean_filename a ++ clean_filename b
  /\ String.length (clean_filename a) <= String.length a
  /\ (clean_filename a = "" <-> str_forallb spec_removed a = true).
Proof.
  rewrite !clean_filename_filter. split; [apply str_filter_app|]. split.
  - rewrite <- (str_filter_length (fun c => negb (spec_removed c)) a).
    apply Nat.le_add_r.
  - rewrite str_filter_empty. split; intros H;
      (eapply str_forallb_impl; [|exact H]); intros c; cbv beta;
      destruct (spec_removed c); auto.
Qed.

Example clean_filename_empty_example :
  make_filename (mkConfig "logs" false [])
    (mkMessage 1 (TextChannel "???" 5 (mkGuild "" 42))
       (mkUser "alice" "0001" 7) (mkDatetime 2020 2 29 23 59 59) None "hi" [])
  = Ok (Some "logs/-42/#-5/2020-02-29.log").
Proof. reflexivity. Qed.

(** ** Messages are logged in the order they arrive *)


